(** * MemoraeAI reminder engine: a shallow embedding and its properties

    The development follows the two source files that make up the reminder
    engine:

    - [reminder_scheduler.py]: [ReminderScheduler.parse_time] (the time
      expression resolver), [schedule_reminder], [cancel_reminder] and the
      job store they drive;
    - [bot.py]: [TelegramBot.extract_reminder_from_text] (the phrase
      extractor), [create_reminder_from_message] (the submission layer) and
      [send_reminder_async] (the delivery step).

    Python values are modelled as follows.  A [str] is a [string] whose
    characters are the code points 0..255 (Latin-1); case mapping and the
    whitespace class are the Unicode ones restricted to that range.  A
    [datetime] in the scheduler's fixed zone is the number of microseconds
    since 0001-01-01 00:00 on the wall clock of that zone, with Python's
    range check written out ([OverflowError] outside years 1..9999).  The
    zone (Asia/Kolkata) has had one constant UTC offset since 1945, so
    comparing two aware datetimes is comparing their wall-clock values.
    Exceptions are values of the error type [res]. *)

From Stdlib Require Import ZArith Ascii List Bool Lia.
From Stdlib Require String.
From stdpp Require Import base tactics option list gmap strings pretty sorting.

Local Open Scope Z_scope.

(** ** Python string operations *)

Module PyStr.

(** [str.isspace] on one character. *)
Definition isspace (c : ascii) : bool :=
  let n := nat_of_ascii c in
  ((9 <=? n) && (n <=? 13) || (28 <=? n) && (n <=? 32)
   || (n =? 133) || (n =? 160))%nat.

(** [str.lower] on one character: A-Z and the accented capitals
    U+00C0..U+00DE (except the multiplication sign U+00D7). *)
Definition lower_char (c : ascii) : ascii :=
  let n := nat_of_ascii c in
  if ((65 <=? n) && (n <=? 90)
      || (192 <=? n) && (n <=? 222) && negb (n =? 215))%nat
  then ascii_of_nat (n + 32) else c.

Fixpoint lower (s : string) : string :=
  match s with
  | EmptyString => EmptyString
  | String c r => String (lower_char c) (lower r)
  end.

Fixpoint lstrip (s : string) : string :=
  match s with
  | EmptyString => EmptyString
  | String c r => if isspace c then lstrip r else s
  end.

Fixpoint rstrip (s : string) : string :=
  match s with
  | EmptyString => EmptyString
  | String c r =>
      match rstrip r with
      | EmptyString => if isspace c then EmptyString else String c EmptyString
      | r' => String c r'
      end
  end.

(** [s.strip()] *)
Definition strip (s : string) : string := rstrip (lstrip s).

(** [s.startswith(p)] *)
Fixpoint startswith (p s : string) : bool :=
  match p, s with
  | EmptyString, _ => true
  | String a p', String b s' => if Ascii.eqb a b then startswith p' s' else false
  | String _ _, EmptyString => false
  end.

(** [s[n:]] and [s[:n]] for a non-negative [n]. *)
Fixpoint drop (n : nat) (s : string) : string :=
  match n, s with
  | O, _ => s
  | S n', String _ r => drop n' r
  | S _, EmptyString => EmptyString
  end.

Fixpoint take (n : nat) (s : string) : string :=
  match n, s with
  | O, _ => EmptyString
  | S n', String c r => String c (take n' r)
  | S _, EmptyString => EmptyString
  end.

(** [sub in s] *)
Fixpoint contains (sub s : string) : bool :=
  if startswith sub s then true
  else match s with
       | EmptyString => false
       | String _ r => contains sub r
       end.

(** [s.find(sub)]: the lowest index where [sub] starts, or -1. *)
Fixpoint find (sub s : string) : Z :=
  if startswith sub s then 0
  else match s with
       | EmptyString => -1
       | String _ r => let i := find sub r in if i <? 0 then -1 else i + 1
       end.

(** [s.split()] with no argument: the maximal runs of non-whitespace
    characters.  [cur] is the word being read, in reverse. *)
Fixpoint split_go (cur : string) (s : string) : list string :=
  match s with
  | EmptyString =>
      match cur with EmptyString => [] | _ => [String.rev cur] end
  | String c r =>
      if isspace c
      then match cur with
           | EmptyString => split_go EmptyString r
           | _ => String.rev cur :: split_go EmptyString r
           end
      else split_go (String c cur) r
  end.

Definition split (s : string) : list string := split_go EmptyString s.

(** [s.split(sep)] for a non-empty separator: cut at every
    non-overlapping occurrence of [sep], scanning from the left.  [skip]
    counts the characters of an occurrence still to be passed over. *)
Fixpoint split_on_go (sep : string) (skip : nat) (cur : string) (s : string)
  : list string :=
  match s with
  | EmptyString => [String.rev cur]
  | String c r =>
      match skip with
      | S k => split_on_go sep k cur r
      | O =>
          if startswith sep s
          then String.rev cur
               :: split_on_go sep (String.length sep - 1) EmptyString r
          else split_on_go sep O (String c cur) r
      end
  end.

Definition split_on (sep s : string) : list string :=
  split_on_go sep O EmptyString s.

(** [s.replace(c, "")] for a one-character [c]. *)
Fixpoint remove_char (c : ascii) (s : string) : string :=
  match s with
  | EmptyString => EmptyString
  | String a r => if Ascii.eqb a c then remove_char c r else String a (remove_char c r)
  end.

Definition is_digit (c : ascii) : bool :=
  let n := nat_of_ascii c in ((48 <=? n) && (n <=? 57))%nat.

Definition digit_val (c : ascii) : Z := Z.of_nat (nat_of_ascii c) - 48.

(** The digits of an [int] literal: decimal digits, with single
    underscores allowed between two digits.  [acc] is the value read so
    far and [prev_digit] tells whether the previous character was a
    digit. *)
Fixpoint int_digits (acc : Z) (prev_digit : bool) (s : string) : option Z :=
  match s with
  | EmptyString => if prev_digit then Some acc else None
  | String c r =>
      if is_digit c then int_digits (10 * acc + digit_val c) true r
      else if Ascii.eqb c "_" then
        if prev_digit then int_digits acc false r else None
      else None
  end.

(** The number of decimal digits of a literal (signs, underscores and
    blanks are not counted), and the largest number of them that [int]
    converts: [sys.int_info.default_max_str_digits]. *)
Fixpoint count_digits (s : string) : nat :=
  match s with
  | EmptyString => 0
  | String c r => if is_digit c then S (count_digits r) else count_digits r
  end.

Definition max_str_digits : nat := 4300.

(** The magnitude of an [int] literal: a literal of more than
    [max_str_digits] digits, leading zeros included, is refused. *)
Definition int_magnitude (s : string) : option Z :=
  if (count_digits s <=? max_str_digits)%nat then int_digits 0 false s else None.

(** [int(s)] in base 10; [None] stands for [ValueError]. *)
Definition int (s : string) : option Z :=
  match strip s with
  | String "+" r => int_magnitude r
  | String "-" r => Z.opp <$> int_magnitude r
  | r => int_magnitude r
  end.

End PyStr.

(** ** Regular expressions (Python's [re], backtracking semantics) *)

Module Re.

(** Character classes. *)
Inductive charset : Type :=
| CAny                        (* [.]: anything but a newline *)
| CSpace                      (* [\s] *)
| CDigit                      (* [\d] *)
| CRange (lo hi : ascii)      (* [[lo-hi]] *)
| CNot (cs : list ascii).     (* [[^...]] *)

Definition in_class (p : charset) (c : ascii) : bool :=
  match p with
  | CAny => negb (Ascii.eqb c "010")
  | CSpace => PyStr.isspace c
  | CDigit => PyStr.is_digit c
  | CRange lo hi =>
      ((nat_of_ascii lo <=? nat_of_ascii c) && (nat_of_ascii c <=? nat_of_ascii hi))%nat
  | CNot cs => negb (existsb (Ascii.eqb c) cs)
  end.

(** The fragment of the pattern language the sources use.  Repetition is
    only ever applied to a character class: [Rep greedy plus p] is [p+]
    ([plus = true]) or [p*], lazy ([+?], [*?]) when [greedy = false]. *)
Inductive regex : Type :=
| Eps
| Lit (s : string)
| Cls (p : charset)
| Rep (greedy plus : bool) (p : charset)
| Seq (r1 r2 : regex)
| Alt (r1 r2 : regex)
| Grp (i : nat) (r : regex).

(** Captures: the most recent binding of a group comes first. *)
Definition captures : Type := list (nat * string).

Fixpoint group (i : nat) (g : captures) : option string :=
  match g with
  | [] => None
  | (j, s) :: g' => if (i =? j)%nat then Some s else group i g'
  end.

(** The text between two positions, each given by what is left of the
    subject. *)
Definition consumed (inp rest : string) : string :=
  PyStr.take (String.length inp - String.length rest) inp.

Fixpoint strip_prefix (p s : string) : option string :=
  match p, s with
  | EmptyString, _ => Some s
  | String a p', String b s' => if Ascii.eqb a b then strip_prefix p' s' else None
  | String _ _, EmptyString => None
  end.

(** [p*] followed by the continuation [k]: a greedy repetition first
    tries to take one more character, a lazy one first tries to stop. *)
Fixpoint rep {A} (greedy : bool) (p : ascii -> bool) (inp : string)
    (k : string -> option A) : option A :=
  match inp with
  | String c rest =>
      if p c then
        if greedy
        then match rep greedy p rest k with Some x => Some x | None => k inp end
        else match k inp with Some x => Some x | None => rep greedy p rest k end
      else k inp
  | EmptyString => k inp
  end.

(** The backtracking matcher, in continuation-passing style: [rx r inp g k]
    matches [r] at the head of [inp] and hands what is left, with the
    captures, to [k]; when [k] fails the next alternative is tried, in
    the order Python tries them. *)
Fixpoint rx {A} (r : regex) (inp : string) (g : captures)
    (k : string -> captures -> option A) : option A :=
  match r with
  | Eps => k inp g
  | Lit s =>
      match strip_prefix s inp with Some rest => k rest g | None => None end
  | Cls p =>
      match inp with
      | String c rest => if in_class p c then k rest g else None
      | EmptyString => None
      end
  | Rep greedy plus p =>
      if plus then
        match inp with
        | String c rest =>
            if in_class p c
            then rep greedy (in_class p) rest (fun rest' => k rest' g)
            else None
        | EmptyString => None
        end
      else rep greedy (in_class p) inp (fun rest' => k rest' g)
  | Seq r1 r2 => rx r1 inp g (fun rest g' => rx r2 rest g' k)
  | Alt r1 r2 =>
      match rx r1 inp g k with Some x => Some x | None => rx r2 inp g k end
  | Grp i r1 =>
      rx r1 inp g (fun rest g' => k rest ((i, consumed inp rest) :: g'))
  end.

(** [re.match]: a match at the start of the subject; the result is the
    unmatched rest and the captures. *)
Definition re_match (r : regex) (s : string) : option (string * captures) :=
  rx r s [] (fun rest g => Some (rest, g)).

(** [re.search]: the first position, from the left, where a match starts. *)
Fixpoint search (r : regex) (s : string) : option captures :=
  match rx r s [] (fun _ g => Some g) with
  | Some g => Some g
  | None => match s with
            | EmptyString => None
            | String _ s' => search r s'
            end
  end.

(** [match.groups()] of a pattern with [n] groups, all of which take part
    in every match of the patterns below. *)
Definition groups (n : nat) (g : captures) : list string :=
  map (fun i => default EmptyString (group i g)) (seq 1 n).

(** [re.sub('^' + r, '', s)]: the pattern is anchored at the start, so at
    most the match at position 0 is removed. *)
Definition sub_prefix (r : regex) (s : string) : string :=
  match re_match r s with
  | Some (rest, _) => rest
  | None => s
  end.

(** What a pattern matches, independently of the order in which the
    matcher explores alternatives: [matches r s g g'] says that [r] can
    consume exactly [s], turning the captures [g] into [g']. *)
Fixpoint all_in (p : charset) (s : string) : bool :=
  match s with
  | EmptyString => true
  | String c r => in_class p c && all_in p r
  end.

Inductive matches : regex -> string -> captures -> captures -> Prop :=
| m_eps g : matches Eps EmptyString g g
| m_lit s g : matches (Lit s) s g g
| m_cls p c g : in_class p c = true -> matches (Cls p) (String c EmptyString) g g
| m_rep gr plus p s g :
    all_in p s = true -> (plus = true -> s <> EmptyString) ->
    matches (Rep gr plus p) s g g
| m_seq r1 r2 s1 s2 g g1 g2 :
    matches r1 s1 g g1 -> matches r2 s2 g1 g2 ->
    matches (Seq r1 r2) (s1 +:+ s2) g g2
| m_alt_l r1 r2 s g g' : matches r1 s g g' -> matches (Alt r1 r2) s g g'
| m_alt_r r1 r2 s g g' : matches r2 s g g' -> matches (Alt r1 r2) s g g'
| m_grp i r s g g' : matches r s g g' -> matches (Grp i r) s g ((i, s) :: g').

End Re.

(** ** Exceptions *)

Inductive exn : Type :=
| ValueError
| OverflowError
| ConflictingIdError
| JobLookupError.

Inductive res (A : Type) : Type :=
| Ok (a : A)
| Raise (e : exn).
Arguments Ok {A} a.
Arguments Raise {A} e.

#[global] Instance res_bind : MBind res := fun A B f m =>
  match m with
  | Ok a => f a
  | Raise e => Raise e
  end.

(** ** [datetime], [timedelta] and [strptime] *)

Module Datetime.

Definition us_per_second : Z := 1000000.
Definition us_per_day : Z := 86400 * us_per_second.

(** [date.max.toordinal()], the ordinal of 9999-12-31. *)
Definition max_ordinal : Z := 3652059.

(** One past [datetime.max], in microseconds since [datetime.min]. *)
Definition max_us : Z := max_ordinal * us_per_day.

Definition datetime : Type := Z.

Definition in_range (t : Z) : bool := (0 <=? t) && (t <? max_us).

(** [timedelta(days=.., seconds=.., minutes=.., hours=.., weeks=..)] as a
    number of microseconds; its day count must lie within
    -999999999..999999999. *)
Definition timedelta (days seconds minutes hours weeks : Z) : res Z :=
  let us := (days + 7 * weeks) * us_per_day
            + (seconds + 60 * minutes + 3600 * hours) * us_per_second in
  if (- 999999999 * us_per_day <=? us) && (us <? 1000000000 * us_per_day)
  then Ok us else Raise OverflowError.

(** [dt + td] *)
Definition add (t : datetime) (td : Z) : res datetime :=
  if in_range (t + td) then Ok (t + td) else Raise OverflowError.

(** [dt.date()], as a day number, and [dt.time()]. *)
Definition date (t : datetime) : Z := t / us_per_day.
Definition time (t : datetime) : Z := t mod us_per_day.

(** [datetime.combine(date, time)] *)
Definition combine (d tod : Z) : Z := d * us_per_day + tod.

(** [timezone.localize(naive)]: attaches the zone.  pytz looks one day to
    either side of the value to find the zone's offset there, which
    overflows within a day of the limits of the type. *)
Definition localize (t : Z) : res datetime :=
  _ ← add t (- us_per_day) ;
  _ ← add t us_per_day ;
  Ok t.

Definition is_leap (y : Z) : bool :=
  (y mod 4 =? 0) && (negb (y mod 100 =? 0) || (y mod 400 =? 0)).

Definition days_in_month (y m : Z) : Z :=
  if m =? 2 then (if is_leap y then 29 else 28)
  else if (m =? 4) || (m =? 6) || (m =? 9) || (m =? 11) then 30 else 31.

Definition days_before_year (y : Z) : Z :=
  let p := y - 1 in p * 365 + p / 4 - p / 100 + p / 400.

Fixpoint days_before_month_go (y : Z) (m : nat) : Z :=
  match m with
  | O => 0
  | S m' => days_before_month_go y m' + days_in_month y (Z.of_nat m)
  end.

Definition days_before_month (y m : Z) : Z :=
  days_before_month_go y (Z.to_nat (m - 1)).

(** [datetime(y, m, d, hh, mm, ss)]; [None] is the [ValueError] of a field
    out of range. *)
Definition make (y m d hh mm ss : Z) : option Z :=
  if (1 <=? y) && (y <=? 9999) && (1 <=? m) && (m <=? 12)
     && (1 <=? d) && (d <=? days_in_month y m)
     && (0 <=? hh) && (hh <=? 23) && (0 <=? mm) && (mm <=? 59)
     && (0 <=? ss) && (ss <=? 59)
  then Some ((days_before_year y + days_before_month y m + d - 1) * us_per_day
             + (hh * 3600 + mm * 60 + ss) * us_per_second)
  else None.

(** *** [strptime]

    Python turns a format into a regular expression, one named group per
    directive, matches it at the start of the data and rejects a match that
    leaves data unconverted. *)

Inductive directive : Type :=
| D_Y | D_m | D_d | D_H | D_I | D_M | D_S | D_p
| D_ws
| D_lit (c : ascii).

Fixpoint parse_format (fmt : string) : option (list directive) :=
  match fmt with
  | EmptyString => Some []
  | String "%" (String c r) =>
      d ← (if Ascii.eqb c "Y" then Some D_Y else if Ascii.eqb c "m" then Some D_m
            else if Ascii.eqb c "d" then Some D_d else if Ascii.eqb c "H" then Some D_H
            else if Ascii.eqb c "I" then Some D_I else if Ascii.eqb c "M" then Some D_M
            else if Ascii.eqb c "S" then Some D_S else if Ascii.eqb c "p" then Some D_p
            else if Ascii.eqb c "%" then Some (D_lit "%") else None) ;
      ds ← parse_format r ;
      Some (d :: ds)
  | String c r =>
      ds ← parse_format r ;
      Some ((if PyStr.isspace c then D_ws else D_lit c) :: ds)
  end.

(** A run of whitespace in the format is one [\s+]. *)
Fixpoint collapse_ws (ds : list directive) : list directive :=
  match ds with
  | [] => []
  | D_ws :: ((D_ws :: _) as t) => collapse_ws t
  | d :: t => d :: collapse_ws t
  end.

Import Re.

Definition digit : regex := Cls CDigit.
Definition rng (lo hi : ascii) : regex := Cls (CRange lo hi).

(** The group numbers stand for the group names [Y m d H I M S p]. *)
Definition directive_re (d : directive) : regex :=
  match d with
  | D_Y => Grp 1 (Seq digit (Seq digit (Seq digit digit)))
  | D_m => Grp 2 (Alt (Seq (Lit "1") (rng "0" "2"))
                 (Alt (Seq (Lit "0") (rng "1" "9")) (rng "1" "9")))
  | D_d => Grp 3 (Alt (Seq (Lit "3") (rng "0" "1"))
                 (Alt (Seq (rng "1" "2") digit)
                 (Alt (Seq (Lit "0") (rng "1" "9"))
                 (Alt (rng "1" "9") (Seq (Lit " ") (rng "1" "9"))))))
  | D_H => Grp 4 (Alt (Seq (Lit "2") (rng "0" "3"))
                 (Alt (Seq (rng "0" "1") digit) digit))
  | D_I => Grp 5 (Alt (Seq (Lit "1") (rng "0" "2"))
                 (Alt (Seq (Lit "0") (rng "1" "9")) (rng "1" "9")))
  | D_M => Grp 6 (Alt (Seq (rng "0" "5") digit) digit)
  | D_S => Grp 7 (Alt (Seq (Lit "6") (rng "0" "1"))
                 (Alt (Seq (rng "0" "5") digit) digit))
  | D_p => Grp 8 (Alt (Lit "am") (Lit "pm"))
  | D_ws => Rep true true CSpace
  | D_lit c => Lit (String c EmptyString)
  end.

Definition format_re (ds : list directive) : regex :=
  fold_right (fun d r => Seq (directive_re d) r) Eps ds.

(** The field of group [i], or [dflt] when the format has no such
    directive. *)
Definition field (i : nat) (dflt : Z) (g : captures) : option Z :=
  match group i g with
  | Some s => PyStr.int s
  | None => Some dflt
  end.

(** The hour: [%I] is read with [%p], where a missing indicator counts as
    AM. *)
Definition hour_field (g : captures) : option Z :=
  match group 5 g with
  | Some s =>
      h ← PyStr.int s ;
      let ampm := default EmptyString (group 8 g) in
      if String.eqb ampm "pm"
      then Some (if h =? 12 then h else h + 12)
      else Some (if h =? 12 then 0 else h)
  | None => field 4 0 g
  end.

(** [datetime.strptime(data, fmt)]; [None] is [ValueError].  The data has
    been lower-cased by the callers, so the pattern's case-insensitivity
    plays no part. *)
Definition strptime (data fmt : string) : option Z :=
  ds ← parse_format fmt ;
  '(rest, g) ← re_match (format_re (collapse_ws ds)) data ;
  if String.eqb rest EmptyString then
    y ← field 1 1900 g ;
    m ← field 2 1 g ;
    d ← field 3 1 g ;
    hh ← hour_field g ;
    mm ← field 6 0 g ;
    ss ← field 7 0 g ;
    make y m d hh mm ss
  else None.

End Datetime.

(** ** [reminder_scheduler.py] *)

Module Scheduler.

Import PyStr Datetime.

(** *** The APScheduler job store and clock

    The scheduler is APScheduler's [BackgroundScheduler] with its default
    in-memory job store.  A job carries its id, the run date of its
    [DateTrigger] and the arguments [(user_id, content, reminder_id)] of the
    callback. *)

Record job : Type := Job {
  job_id : string;
  run_date : datetime;
  job_args : Z * string * Z
}.

Definition jobstore : Type := list job.

Definition has_id (id : string) (j : job) : bool := String.eqb (job_id j) id.

(** [scheduler.get_job(id)] *)
Definition get_job (id : string) (js : jobstore) : option job :=
  List.find (has_id id) js.

(** [store.update_job(job)]: the stored job of that id is replaced. *)
Definition update_job (j : job) (js : jobstore) : jobstore :=
  map (fun j' => if has_id (job_id j) j' then j else j') js.

(** [scheduler.add_job(..., id=.., replace_existing=..)]: adding under an
    id already in the store raises [ConflictingIdError], unless
    [replace_existing] is set, in which case the stored job is updated. *)
Definition add_job (j : job) (replace_existing : bool) (js : jobstore)
  : res jobstore :=
  match get_job (job_id j) js with
  | None => Ok (js ++ [j])
  | Some _ => if replace_existing then Ok (update_job j js)
              else Raise ConflictingIdError
  end.

(** [scheduler.remove_job(id)] raises [JobLookupError] for an unknown id. *)
Definition remove_job (id : string) (js : jobstore) : res jobstore :=
  match get_job id js with
  | None => Raise JobLookupError
  | Some _ => Ok (List.filter (fun j => negb (has_id id j)) js)
  end.

(** The default [misfire_grace_time], one second. *)
Definition misfire_grace_time : Z := 1 * us_per_second.

(** One wake-up of the scheduler's clock at time [now]: every job whose run
    date has come is handed to the executor and, its date trigger having no
    further fire time, removed from the store.  The executor calls the
    callback unless the run is late by more than the grace time.  The result
    is the list of jobs whose callback runs and the remaining store. *)
Definition process_jobs (now : datetime) (js : jobstore) : list job * jobstore :=
  (List.filter (fun j => (run_date j <=? now) && (now - run_date j <=? misfire_grace_time)) js,
   List.filter (fun j => negb (run_date j <=? now)) js).

(** *** [ReminderScheduler.parse_time] *)

(** The formats tried on the text after "at". *)
Fixpoint first_format (fmts : list string) (data : string) : option Z :=
  match fmts with
  | [] => None
  | fmt :: rest =>
      match strptime data fmt with
      | Some parsed => Some parsed
      | None => first_format rest data
      end
  end.

(** Handle "in X" or "after X" seconds/minutes/hours/days.  [None] means
    that the block fell through to the rules after it. *)
Definition parse_relative (now : datetime) (time_str : string)
  : option (res datetime) :=
  if startswith "in " time_str || startswith "after " time_str then
    let parts := if startswith "in " time_str
                 then split (drop 3 time_str)
                 else split (drop 6 time_str) in
    match parts with
    | p0 :: unit :: _ =>
        match int p0 with
        | Some amount =>
            if contains "second" unit || contains "sec" unit then
              Some (td ← timedelta 0 amount 0 0 0 ; add now td)
            else if contains "minute" unit || contains "min" unit then
              Some (td ← timedelta 0 0 amount 0 0 ; add now td)
            else if contains "hour" unit || contains "hr" unit then
              Some (td ← timedelta 0 0 0 amount 0 ; add now td)
            else if contains "day" unit then
              Some (td ← timedelta amount 0 0 0 0 ; add now td)
            else if contains "week" unit then
              Some (td ← timedelta 0 0 0 0 amount ; add now td)
            else None
        | None => None
        end
    | _ => None
    end
  else None.

(** [time_str.split("at")[1].strip()], with the blanks removed for
    [strptime]. *)
Definition time_part (time_str : string) : string :=
  remove_char " " (strip (nth 1 (split_on "at" time_str) EmptyString)).

(** Handle "tomorrow". *)
Definition parse_tomorrow (now : datetime) (time_str : string) : res datetime :=
  td ← timedelta 1 0 0 0 0 ;
  tomorrow ← add now td ;
  if contains "at" time_str then
    match first_format ["%I%p"; "%I:%M%p"; "%H:%M"; "%H"] (time_part time_str) with
    | Some parsed =>
        match localize (combine (date tomorrow) (time parsed)) with
        | Ok result => Ok result
        | Raise _ => Ok tomorrow
        end
    | None => Ok tomorrow
    end
  else Ok tomorrow.

(** Handle "today" or just "at X".  [None] means that the block fell
    through. *)
Definition parse_today (now : datetime) (time_str : string) : option datetime :=
  if contains "today" time_str || contains "at" time_str then
    if contains "at" time_str then
      match first_format ["%I%p"; "%I:%M%p"; "%H:%M"; "%H"; "%I:%M"]
                         (time_part time_str) with
      | Some parsed =>
          match localize (combine (date now) (time parsed)) with
          | Ok result =>
              if result <? now then
                match (td ← timedelta 1 0 0 0 0 ; add result td) with
                | Ok result' => Some result'
                | Raise _ => None
                end
              else Some result
          | Raise _ => None
          end
      | None => None
      end
    else None
  else None.

(** Try standard datetime formats. *)
Fixpoint parse_standard (fmts : list string) (time_str : string)
  : option (res datetime) :=
  match fmts with
  | [] => None
  | fmt :: rest =>
      match strptime time_str fmt with
      | Some parsed => Some (localize parsed)
      | None => parse_standard rest time_str
      end
  end.

(** [now] is the reading of the clock that the function takes on entry. *)
Definition parse_time (now : datetime) (time_str : string) : res datetime :=
  let time_str := strip (lower time_str) in
  match parse_relative now time_str with
  | Some result => result
  | None =>
      if contains "tomorrow" time_str then parse_tomorrow now time_str
      else
        match parse_today now time_str with
        | Some result => Ok result
        | None =>
            match parse_standard ["%Y-%m-%d %H:%M"; "%Y-%m-%d %H:%M:%S";
                                  "%d/%m/%Y %H:%M"; "%m/%d/%Y %H:%M"] time_str with
            | Some result => result
            | None =>
                (* Default: 1 hour from now *)
                td ← timedelta 0 0 0 1 0 ; add now td
            end
        end
  end.

(** *** [ReminderScheduler.schedule_reminder] *)

Inductive schedule_error : Type :=
| PastTime (reminder_time now : datetime)   (* "Cannot schedule reminder in the past" *)
| Exception (e : exn).                      (* [str(e)] of a caught exception *)

(** The result dictionary: [{"success": True, "parsed_time", "job_id"}] or
    [{"success": False, "error", "parsed_time": None}]. *)
Inductive schedule_result : Type :=
| Scheduled (parsed_time : datetime) (job_id : string)
| Failed (error : schedule_error).

Definition success (r : schedule_result) : bool :=
  match r with
  | Scheduled _ _ => true
  | Failed _ => false
  end.

(** [f"reminder_{reminder_id}"] *)
Definition reminder_job_id (reminder_id : Z) : string :=
  "reminder_" +:+ pretty reminder_id.

(** [clock1] is the reading of the clock taken inside [parse_time], [clock2]
    the one taken afterwards for the past-time check. *)
Definition schedule_reminder (clock1 clock2 : datetime)
    (reminder_id user_id : Z) (content time_str : string) (js : jobstore)
  : schedule_result * jobstore :=
  match parse_time clock1 time_str with
  | Raise e => (Failed (Exception e), js)
  | Ok reminder_time =>
      let now := clock2 in
      (* Don't schedule past reminders *)
      if reminder_time <? now then (Failed (PastTime reminder_time now), js)
      else
        let id := reminder_job_id reminder_id in
        match add_job (Job id reminder_time (user_id, content, reminder_id)) true js with
        | Ok js' => (Scheduled reminder_time id, js')
        | Raise e => (Failed (Exception e), js)
        end
  end.

(** [ReminderScheduler.cancel_reminder] *)
Definition cancel_reminder (reminder_id : Z) (js : jobstore) : bool * jobstore :=
  match remove_job (reminder_job_id reminder_id) js with
  | Ok js' => (true, js')
  | Raise _ => (false, js)
  end.

(** [ReminderScheduler.get_scheduled_reminders] *)
Definition get_scheduled_reminders (js : jobstore)
  : list (string * datetime * (Z * string * Z)) :=
  map (fun j => (job_id j, run_date j, job_args j)) js.

(** *** The life of a scheduler

    Everything that can happen to the job store: a call of
    [schedule_reminder], a call of [cancel_reminder], or a wake-up of the
    scheduler's clock. *)
Inductive op : Type :=
| OpSchedule (clock1 clock2 : datetime) (reminder_id user_id : Z)
             (content time_str : string)
| OpCancel (reminder_id : Z)
| OpWake (now : datetime).

Definition step (js : jobstore) (o : op) : jobstore :=
  match o with
  | OpSchedule clock1 clock2 reminder_id user_id content time_str =>
      snd (schedule_reminder clock1 clock2 reminder_id user_id content time_str js)
  | OpCancel reminder_id => snd (cancel_reminder reminder_id js)
  | OpWake now => snd (process_jobs now js)
  end.

(** The store after a history of operations on a fresh scheduler. *)
Definition store_after (history : list op) : jobstore :=
  fold_left step history [].

(** The callbacks run by a sequence of wake-ups, in order, each with the
    time of the wake-up that ran it. *)
Fixpoint run_clock (wakeups : list datetime) (js : jobstore)
  : list (datetime * job) :=
  match wakeups with
  | [] => []
  | now :: rest =>
      let '(due, js') := process_jobs now js in
      map (fun j => (now, j)) due ++ run_clock rest js'
  end.

End Scheduler.

(** ** [bot.py] *)

Module Bot.

Import PyStr Re.

(** *** [TelegramBot.extract_reminder_from_text] *)

(** The returned dictionary [{'content': .., 'time_str': ..}]. *)
Record reminder_info : Type := Info {
  content : string;
  time_str : string
}.

Definition seqs (rs : list regex) : regex := fold_right Seq Eps rs.

Definition ws_plus : regex := Rep true true CSpace.
Definition ws_star : regex := Rep true false CSpace.
Definition alts (ws : list string) : regex :=
  fold_right (fun w r => Alt (Lit w) r) (Lit (List.last ws EmptyString))
             (removelast ws).

(** [r'remind me (after|in)\s+([^to]+?)\s+to\s+(.+)'] *)
Definition pattern_time_first : regex :=
  seqs [Lit "remind me "; Grp 1 (alts ["after"; "in"]); ws_plus;
        Grp 2 (Rep false true (CNot ["t"; "o"]%char)); ws_plus;
        Lit "to"; ws_plus; Grp 3 (Rep true true CAny)].

(** [r'remind me to\s+(.+?)\s+(after|in|at|tomorrow|today|next)\s+(.+)'] *)
Definition pattern_content_first : regex :=
  seqs [Lit "remind me to"; ws_plus; Grp 1 (Rep false true CAny); ws_plus;
        Grp 2 (alts ["after"; "in"; "at"; "tomorrow"; "today"; "next"]); ws_plus;
        Grp 3 (Rep true true CAny)].

(** [r'(after|in)\s+([^to]+?)\s+remind me to\s+(.+)'] *)
Definition pattern_time_lead : regex :=
  seqs [Grp 1 (alts ["after"; "in"]); ws_plus;
        Grp 2 (Rep false true (CNot ["t"; "o"]%char)); ws_plus;
        Lit "remind me to"; ws_plus; Grp 3 (Rep true true CAny)].

(** The common ending [\s+(.+)] of the three patterns. *)
Definition content_tail : regex := seqs [ws_plus; Grp 3 (Rep true true CAny)].

Definition patterns : list regex :=
  [pattern_time_first; pattern_content_first; pattern_time_lead].

Definition time_keywords : list string :=
  ["after"; "in"; "at"; "tomorrow"; "today"; "next"].

Definition is_in (s : string) (l : list string) : bool :=
  existsb (String.eqb s) l.

(** The loop over the structured patterns: the first pattern that matches
    and has a time keyword as its first or second group decides. *)
Fixpoint match_patterns (ps : list regex) (text_lower : string)
  : option reminder_info :=
  match ps with
  | [] => None
  | pattern :: rest =>
      match search pattern text_lower with
      | Some m =>
          match groups 3 m with
          | [g0; g1; g2] =>
              if is_in g0 time_keywords then
                (* "(time_keyword) (time_value) ... (content)" *)
                Some (Info (strip g2) (strip (g0 +:+ " " +:+ g1)))
              else if is_in g1 time_keywords then
                (* "(content) (time_keyword) (time_value)" *)
                Some (Info (strip g0) (strip (g1 +:+ " " +:+ g2)))
              else match_patterns rest text_lower
          | _ => match_patterns rest text_lower
          end
      | None => match_patterns rest text_lower
      end
  end.

(** [r'^(remind me to|remind me|set a reminder to|reminder to)\s*'] *)
Definition lead_in : regex :=
  seqs [Grp 1 (alts ["remind me to"; "remind me"; "set a reminder to"; "reminder to"]);
        ws_star].

(** [r'^(remind me to|remind me)\s*'] *)
Definition lead_in_short : regex :=
  seqs [Grp 1 (alts ["remind me to"; "remind me"]); ws_star].

(** Fallback: simple keyword split.  The keywords are tried in the order of
    the list; the text is cut at the first occurrence of the keyword. *)
Fixpoint keyword_split (keywords : list string) (text_lower : string)
  : option reminder_info :=
  match keywords with
  | [] => None
  | keyword :: rest =>
      if contains keyword text_lower then
        let idx := Z.to_nat (find keyword text_lower) in
        let before := strip (take idx text_lower) in
        let after := strip (drop idx text_lower) in
        let before := strip (sub_prefix lead_in before) in
        if negb (String.eqb before EmptyString) && (3 <? String.length before)%nat
        then Some (Info before after)
        else keyword_split rest text_lower
      else keyword_split rest text_lower
  end.

Definition split_keywords : list string :=
  [" after "; " in "; " at "; " tomorrow "; " today "].

Definition extract_reminder_from_text (text : string) : reminder_info :=
  let text_lower := strip (lower text) in
  let original_text := strip text in
  match match_patterns patterns text_lower with
  | Some info => info
  | None =>
      match keyword_split split_keywords text_lower with
      | Some info => info
      | None =>
          (* Last resort: use whole text as content *)
          let content := strip (sub_prefix lead_in_short text_lower) in
          Info (if negb (String.eqb content EmptyString) then content else original_text)
               "in 1 hour"
      end
  end.

(** *** The durable store, the chat and the scheduler as one state *)

(** A row of the [reminders] table (the columns the engine writes). *)
Record Reminder : Type := Row {
  user_id : Z;
  row_content : string;
  reminder_time : Datetime.datetime;
  sent : bool;
  completed : bool
}.

(** The texts the bot sends, by kind. *)
Inductive message : Type :=
| ReminderText (content : string)                       (* "Reminder: {content}" *)
| GotIt (content : string) (at_time : Datetime.datetime) (* "Got it! I'll remind you: ..." *)
| CouldNotParse   (* "I understood you want a reminder, but I couldn't parse the time. ..." *)
| Sorry.          (* "Sorry, I couldn't create that reminder." *)

(** What the engine does to the outside, in the order it does it. *)
Inductive event : Type :=
| SendMessage (chat_id : Z) (text : message) (ok : bool) (* [bot.send_message], and whether it succeeded *)
| ReplyText (text : message)                             (* [update.message.reply_text] *)
| MarkSent (reminder_id : Z)                             (* the commit of [sent] and [completed] *)
| Rollback                                               (* [db.rollback()] *)
| VectorStoreAdd (telegram_id : Z) (content : string) (at_time : Datetime.datetime)
| LogError
| LogWarning.

Record world : Type := World {
  rows : gmap Z Reminder;
  jobs : Scheduler.jobstore;
  trace : list event
}.

Definition emit (e : event) (w : world) : world :=
  World (rows w) (jobs w) (trace w ++ [e]).

Definition set_rows (t : gmap Z Reminder) (w : world) : world :=
  World t (jobs w) (trace w).

Definition set_jobs (js : Scheduler.jobstore) (w : world) : world :=
  World (rows w) js (trace w).

(** *** [TelegramBot.send_reminder_async]

    [send_ok] tells whether [bot.send_message] succeeds and [db_ok] whether
    the database session does (query and commit). *)
Definition send_reminder_async (send_ok db_ok : bool)
    (user_id : Z) (content : string) (reminder_id : Z) (w : world) : world :=
  let w := emit (SendMessage user_id (ReminderText content) send_ok) w in
  if send_ok then
    (* Mark reminder as sent in database *)
    if db_ok then
      match rows w !! reminder_id with
      | Some reminder =>
          let reminder := Row (Bot.user_id reminder) (row_content reminder)
                              (reminder_time reminder) true true in
          emit (MarkSent reminder_id) (set_rows (<[reminder_id := reminder]> (rows w)) w)
      | None => emit LogWarning w
      end
    else emit Rollback (emit LogError w)
  else emit LogError w.

(** *** [TelegramBot.create_reminder_from_message]

    [uid] and [telegram_id] are the two ids of the [User]; [new_id] is the
    primary key the store assigns to the new row, [placeholder] the clock
    reading stored until the reminder is scheduled, and [clock1], [clock2]
    the readings taken by [schedule_reminder].  The store, the vector store
    and the reply are taken to succeed. *)
Definition create_reminder_from_message (uid telegram_id new_id : Z)
    (placeholder clock1 clock2 : Datetime.datetime) (text : string) (w : world)
  : world :=
  (* Extract reminder info *)
  let reminder_info := extract_reminder_from_text text in
  let content := Bot.content reminder_info in
  let time_str := Bot.time_str reminder_info in
  (* Save to database *)
  let reminder := Row uid content placeholder false false in
  let w := set_rows (<[new_id := reminder]> (rows w)) w in
  (* Schedule the reminder *)
  let '(schedule_result, js) :=
    Scheduler.schedule_reminder clock1 clock2 new_id telegram_id content time_str (jobs w) in
  let w := set_jobs js w in
  match schedule_result with
  | Scheduler.Scheduled parsed_time _ =>
      (* Update with actual scheduled time *)
      let reminder := Row uid content parsed_time false false in
      let w := set_rows (<[new_id := reminder]> (rows w)) w in
      let w := emit (VectorStoreAdd telegram_id content parsed_time) w in
      emit (ReplyText (GotIt content parsed_time)) w
  | Scheduler.Failed _ =>
      let w := set_rows (delete new_id (rows w)) w in
      emit (ReplyText CouldNotParse) w
  end.

(** *** [TelegramBot.detect_reminder_intent] *)

(** [\w] on one character. *)
Definition is_word_char (c : ascii) : bool :=
  let n := nat_of_ascii c in
  ((48 <=? n) && (n <=? 57) || (65 <=? n) && (n <=? 90) || (n =? 95)
   || (97 <=? n) && (n <=? 122)
   || (n =? 170) || (n =? 178) || (n =? 179) || (n =? 181) || (n =? 185)
   || (n =? 186) || (188 <=? n) && (n <=? 190)
   || (192 <=? n) && (n <=? 214) || (216 <=? n) && (n <=? 246)
   || (248 <=? n))%nat.

(** The end of a pattern that closes with [\b] after a word character: the
    next character, if any, is not a word character. *)
Definition at_word_end (rest : string) (g : captures) : option captures :=
  match rest with
  | EmptyString => Some g
  | String c _ => if is_word_char c then None else Some g
  end.

(** [re.search(r'\b' + r + r'\b', s)] for a pattern [r] that begins and
    ends with a word character: a match starts only where the character
    before is not a word character, and ends only where the character after
    is not one.  [prev_word] tells whether the character before the current
    position is a word character. *)
Fixpoint search_words (r : regex) (prev_word : bool) (s : string) : bool :=
  match (if prev_word then None else rx r s [] at_word_end) with
  | Some _ => true
  | None =>
      match s with
      | EmptyString => false
      | String c s' => search_words r (is_word_char c) s'
      end
  end.

Definition opt (r : regex) : regex := Alt r Eps.
Definition digits : regex := Rep true true CDigit.

(** The reminder trigger phrases, each between two [\b]:
    [remind me], [set (a )?reminder], [reminder (to|for)], [don\'?t forget],
    [after \d+], [in \d+], [tomorrow at], [today at],
    [next (week|month|monday|...|sunday)]. *)
Definition reminder_patterns : list regex :=
  [ Lit "remind me";
    seqs [Lit "set "; Grp 1 (opt (Lit "a ")); Lit "reminder"];
    seqs [Lit "reminder "; Grp 1 (alts ["to"; "for"])];
    seqs [Lit "don"; opt (Lit "'"); Lit "t forget"];
    seqs [Lit "after "; digits];
    seqs [Lit "in "; digits];
    Lit "tomorrow at";
    Lit "today at";
    seqs [Lit "next ";
          Grp 1 (alts ["week"; "month"; "monday"; "tuesday"; "wednesday";
                       "thursday"; "friday"; "saturday"; "sunday"])] ].

Definition detect_reminder_intent (text : string) : bool :=
  let text_lower := lower text in
  existsb (fun pattern => search_words pattern false text_lower) reminder_patterns.

(** *** [TelegramBot.view_reminders_command]

    The query: the rows of the user that are not sent, with their keys, in
    the order of their reminder time. *)
Definition earlier (a b : Z * Reminder) : Prop :=
  reminder_time (snd a) <= reminder_time (snd b).

#[global] Instance earlier_dec : RelDecision earlier.
Proof. intros a b. unfold earlier. apply _. Defined.

#[global] Instance earlier_total : Total earlier.
Proof. intros a b. unfold earlier. lia. Qed.

Definition active_reminders (uid : Z) (rows : gmap Z Reminder) : list (Z * Reminder) :=
  merge_sort earlier
    (List.filter (fun kr => (user_id (snd kr) =? uid) && negb (sent (snd kr)))
                 (map_to_list rows)).

(** The reply: "You don't have any active reminders!", or one entry per
    reminder with its status ("Sent" for a sent reminder, "Pending"
    otherwise), its content and its time. *)
Inductive reminders_reply : Type :=
| NoActiveReminders
| YourReminders (entries : list (bool * string * Datetime.datetime)).

Definition view_reminders_command (uid : Z) (rows : gmap Z Reminder) : reminders_reply :=
  match active_reminders uid rows with
  | [] => NoActiveReminders
  | reminders =>
      YourReminders (map (fun kr => (sent (snd kr), row_content (snd kr),
                                     reminder_time (snd kr))) reminders)
  end.

End Bot.

(** ** The vocabulary of the specification

    The notions the specification speaks of, written from its words, in
    which the properties below are stated. *)

Module Spec.

Import PyStr Datetime.

(** A word: non-empty and free of whitespace. *)
Fixpoint no_space (s : string) : bool :=
  match s with
  | EmptyString => true
  | String c r => negb (isspace c) && no_space r
  end.

Definition is_word (s : string) : bool :=
  negb (String.eqb s EmptyString) && no_space s.

(** Blank: empty or made of whitespace only. *)
Definition is_blank (s : string) : bool := String.eqb (strip s) EmptyString.

Inductive unit : Type := Seconds | Minutes | Hours | Days | Weeks.

(** The length of a unit, in microseconds. *)
Definition unit_us (k : unit) : Z :=
  match k with
  | Seconds => 1
  | Minutes => 60
  | Hours => 3600
  | Days => 86400
  | Weeks => 604800
  end * us_per_second.

(** Unit matching is substring-based: any unit containing "sec" is
    seconds, containing "min" minutes, containing "hr" or "hour" hours,
    containing "day" days, containing "week" weeks; the first of these, in
    this order, that applies. *)
Definition unit_of (u : string) : option unit :=
  if contains "sec" u then Some Seconds
  else if contains "min" u then Some Minutes
  else if contains "hr" u || contains "hour" u then Some Hours
  else if contains "day" u then Some Days
  else if contains "week" u then Some Weeks
  else None.

(** A relative-offset phrase: it begins with "in " or "after ", followed by
    an integer and a unit token. *)
Definition relative_phrase (phrase : string) : option (Z * unit) :=
  let body := if startswith "in " phrase then Some (drop 3 phrase)
              else if startswith "after " phrase then Some (drop 6 phrase)
              else None in
  match split <$> body with
  | Some (n :: u :: _) =>
      match int n, unit_of u with
      | Some amount, Some k => Some (amount, k)
      | _, _ => None
      end
  | _ => None
  end.

(** [now + us], where that is a datetime: the offset must be a
    [timedelta] and the sum must lie within years 1..9999. *)
Definition representable (now us : Z) : Prop :=
  - 999999999 * us_per_day <= us < 1000000000 * us_per_day
  /\ 0 <= now + us < max_us.

(** A reading of the clock that is not within three days of the limits of
    the [datetime] type. *)
Definition clock_reading (now : datetime) : Prop :=
  us_per_day <= now /\ now + 3 * us_per_day <= max_us.

(** A time of day, [hh:mm], and the datetime of that time on the day of
    [now] and on the day after. *)
Definition clock_time (hh mm : Z) : Z := (hh * 3600 + mm * 60) * us_per_second.

Definition today_at (now : datetime) (tod : Z) : datetime :=
  combine (date now) tod.

Definition tomorrow_at (now : datetime) (tod : Z) : datetime :=
  combine (date now + 1) tod.

(** The second structured pattern is the one that decides and what it
    captures as content is blank. *)
Definition blank_content_capture (text_lower : string) : bool :=
  match Re.search Bot.pattern_time_first text_lower with
  | Some _ => false
  | None =>
      match Re.search Bot.pattern_content_first text_lower with
      | Some m =>
          match Re.groups 3 m with
          | [g0; _; _] => is_blank g0
          | _ => false
          end
      | None => false
      end
  end.

(** 2026-11-06 at 10:00 and at 15:00, two readings of the clock used in
    the examples. *)
Definition a_morning : datetime := default 0 (make 2026 11 6 10 0 0).
Definition that_day_3pm : datetime := default 0 (make 2026 11 6 15 0 0).

(** A request that no structured pattern matches. *)
Definition example_meeting : string := "don't forget meeting tomorrow at 3pm".

(** A request whose duration has an 'o'. *)
Definition example_hours : string := "remind me after 2 hours to call mom".

(** The deliveries of reminder [reminder_id] among the callbacks run. *)
Definition deliveries (reminder_id : Z) (runs : list (datetime * Scheduler.job))
  : list (datetime * Scheduler.job) :=
  List.filter (fun r => Scheduler.has_id (Scheduler.reminder_job_id reminder_id) (snd r)) runs.

(** No two jobs of a store share an id. *)
Definition unique_ids (js : Scheduler.jobstore) : Prop :=
  forall id, (length (List.filter (Scheduler.has_id id) js) <= 1)%nat.

(** The timers of reminder [reminder_id] in a store. *)
Definition timers (reminder_id : Z) (js : Scheduler.jobstore) : list Scheduler.job :=
  List.filter (Scheduler.has_id (Scheduler.reminder_job_id reminder_id)) js.

(** The phrase begins with a decimal digit. *)
Definition begins_with_digit (s : string) : bool :=
  match s with
  | EmptyString => false
  | String c _ => is_digit c
  end.

(** The phrase begins with one of the time keywords. *)
Definition begins_with_keyword (s : string) : bool :=
  existsb (fun kw => startswith kw s) Bot.time_keywords.

(** The standard datetime formats of [parse_time]. *)
Definition standard_formats : list string :=
  ["%Y-%m-%d %H:%M"; "%Y-%m-%d %H:%M:%S"; "%d/%m/%Y %H:%M"; "%m/%d/%Y %H:%M"].

(** The text begins with a digit or a blank, as every text that one of the
    standard formats reads does. *)
Definition opens_date (s : string) : Prop :=
  exists c t, s = String c t /\ (is_digit c = true \/ isspace c = true).

(** The text ends in a word character ([prev] tells whether the character
    before the text is one), and the text begins with one. *)
Fixpoint ends_in_word (prev : bool) (s : string) : bool :=
  match s with
  | EmptyString => prev
  | String c r => ends_in_word (Bot.is_word_char c) r
  end.

Definition begins_with_word (s : string) : bool :=
  match s with
  | EmptyString => false
  | String c _ => Bot.is_word_char c
  end.

(** Every character is its own lower-case form. *)
Fixpoint is_lower (s : string) : bool :=
  match s with
  | EmptyString => true
  | String c r => Ascii.eqb (lower_char c) c && is_lower r
  end.

(** An extraction whose two fields are trimmed and in lower case. *)
Definition trimmed_lower (info : Bot.reminder_info) : Prop :=
  strip (Bot.content info) = Bot.content info
  /\ strip (Bot.time_str info) = Bot.time_str info
  /\ is_lower (Bot.content info) = true /\ is_lower (Bot.time_str info) = true.


End Spec.

(** * Properties *)

(** ** The model on small inputs *)

Example split_ex :
  PyStr.split " 5   minutes from now " = ["5"; "minutes"; "from"; "now"]
  /\ PyStr.split_on "at" "saturday at 3pm" = ["s"; "urday "; " 3pm"]
  /\ PyStr.find " at " "meet me at 5 at home" = 7
  /\ PyStr.find "zz" "abc" = -1
  /\ PyStr.strip "  a b  " = "a b"
  /\ PyStr.lower "In 5 MIN" = "in 5 min".
Proof. repeat split; reflexivity. Qed.

Example int_ex :
  PyStr.int "-1_000" = Some (-1000) /\ PyStr.int "1__0" = None
  /\ PyStr.int "5_" = None /\ PyStr.int "+" = None /\ PyStr.int "007" = Some 7.
Proof. repeat split; reflexivity. Qed.

Example search_ex :
  Re.groups 3 <$> Re.search Bot.pattern_time_first "remind me after 2 min to stop scrolling"
  = Some ["after"; "2 min"; "stop scrolling"]
  /\ Re.groups 3 <$> Re.search Bot.pattern_content_first "remind me to   in 5"
     = Some [" "; "in"; "5"]
  /\ Re.groups 3 <$> Re.search Bot.pattern_time_first
                       "remind me after two remind me in 5 min to call"
     = Some ["in"; "5 min"; "call"].
Proof. repeat split; vm_compute; reflexivity. Qed.

Example strptime_ex :
  Datetime.time <$> Datetime.strptime "3pm" "%I%p" = Some (Spec.clock_time 15 0)
  /\ Datetime.strptime "15pm" "%I%p" = None
  /\ Datetime.time <$> Datetime.strptime "12am" "%I%p" = Some 0
  /\ Datetime.time <$> Datetime.strptime "3:29" "%H:%M" = Some (Spec.clock_time 3 29)
  /\ Datetime.strptime "230" "%H" = None
  /\ Datetime.strptime "2024-02-30 10:00" "%Y-%m-%d %H:%M" = None
  /\ Datetime.strptime "0001-01-01 00:00" "%Y-%m-%d %H:%M" = Some 0
  /\ Datetime.strptime "9999-12-31 23:59:59" "%Y-%m-%d %H:%M:%S"
     = Some (Datetime.max_us - Datetime.us_per_second)
  /\ Datetime.date <$> Datetime.strptime "1970-01-01 00:00" "%Y-%m-%d %H:%M"
     = Some 719162.
Proof. repeat split; vm_compute; reflexivity. Qed.

Example extract_ex :
  Bot.extract_reminder_from_text "remind me after 2 min to stop scrolling"
  = Bot.Info "stop scrolling" "after 2 min"
  /\ Bot.extract_reminder_from_text "Remind me to call mom tomorrow at 3pm"
     = Bot.Info "call mom" "tomorrow at 3pm"
  /\ Bot.extract_reminder_from_text "remind me"
     = Bot.Info "remind me" "in 1 hour".
Proof. repeat split; vm_compute; reflexivity. Qed.

Example parse_time_ex :
  Scheduler.parse_time Spec.a_morning "tomorrow at 3pm"
  = Ok (Spec.tomorrow_at Spec.a_morning (Spec.clock_time 15 0))
  /\ Scheduler.parse_time Spec.a_morning "saturday at 3pm"
     = Ok (Spec.a_morning + Spec.unit_us Spec.Hours)
  /\ Scheduler.parse_time Spec.a_morning "2026-11-06 15:00" = Ok Spec.that_day_3pm
  /\ Scheduler.parse_time Spec.a_morning "in 5 h"
     = Ok (Spec.a_morning + Spec.unit_us Spec.Hours).
Proof. repeat split; vm_compute; reflexivity. Qed.

(** ** Strings *)

Section StringFacts.

Import PyStr Spec.

Lemma app_cons c s t : String c s +:+ t = String c (s +:+ t).
Proof. reflexivity. Qed.

Lemma app_empty_l t : EmptyString +:+ t = t.
Proof. reflexivity. Qed.

Lemma app_empty_r s : s +:+ EmptyString = s.
Proof. induction s as [|c s IH]; [reflexivity|]. rewrite app_cons, IH. reflexivity. Qed.

Lemma app_assoc_str s t u : (s +:+ t) +:+ u = s +:+ (t +:+ u).
Proof.
  induction s as [|c s IH]; [reflexivity|].
  rewrite !app_cons, IH. reflexivity.
Qed.

Lemma length_app_str s t :
  String.length (s +:+ t) = (String.length s + String.length t)%nat.
Proof.
  induction s as [|c s IH]; [reflexivity|].
  rewrite app_cons. simpl. rewrite IH. reflexivity.
Qed.

Lemma take_app_length s t :
  take (String.length (s +:+ t) - String.length t) (s +:+ t) = s.
Proof.
  rewrite length_app_str.
  replace (String.length s + String.length t - String.length t)%nat
    with (String.length s) by lia.
  induction s as [|c s IH].
  - destruct t; reflexivity.
  - rewrite app_cons. simpl. rewrite IH. reflexivity.
Qed.

Lemma lower_app s t : lower (s +:+ t) = lower s +:+ lower t.
Proof.
  induction s as [|c s IH]; [reflexivity|].
  rewrite app_cons. simpl. rewrite IH. reflexivity.
Qed.

Lemma startswith_app p s : startswith p (p +:+ s) = true.
Proof.
  induction p as [|c p IH]; [reflexivity|].
  rewrite app_cons. simpl. rewrite Ascii.eqb_refl. exact IH.
Qed.

Lemma drop_app_length p s : drop (String.length p) (p +:+ s) = s.
Proof. induction p as [|c p IH]; [reflexivity|]. rewrite app_cons. simpl. exact IH. Qed.

(** A prefix of a prefix is a prefix. *)
Lemma startswith_app_l p q s : startswith (p +:+ q) s = true -> startswith p s = true.
Proof.
  revert s; induction p as [|c p IH]; intros s H; [reflexivity|].
  rewrite app_cons in H. destruct s as [|d s]; simpl in *; [discriminate|].
  destruct (Ascii.eqb c d); [auto|discriminate].
Qed.

Lemma contains_app_l p q s : contains (p +:+ q) s = true -> contains p s = true.
Proof.
  induction s as [|d s IH]; simpl; intros H.
  - destruct (startswith (p +:+ q) EmptyString) eqn:E; [|discriminate].
    rewrite (startswith_app_l _ _ _ E). reflexivity.
  - destruct (startswith (p +:+ q) (String d s)) eqn:E.
    + rewrite (startswith_app_l _ _ _ E). reflexivity.
    + destruct (startswith p (String d s)); auto.
Qed.

Lemma lower_char_space c : isspace (lower_char c) = isspace c.
Proof. destruct c as [[] [] [] [] [] [] [] []]; reflexivity. Qed.

Lemma no_space_lower s : no_space (lower s) = no_space s.
Proof.
  induction s as [|c s IH]; [reflexivity|].
  simpl. rewrite lower_char_space, IH. reflexivity.
Qed.

Lemma is_word_lower s : is_word (lower s) = is_word s.
Proof.
  unfold is_word. rewrite no_space_lower. destruct s; reflexivity.
Qed.

(** [rstrip] leaves alone a text that ends in a word. *)
Lemma rstrip_word w : is_word w = true -> rstrip w = w.
Proof.
  unfold is_word. induction w as [|c w IH]; [discriminate|].
  simpl. intros [Hc Hw]%andb_prop. apply negb_true_iff in Hc.
  destruct w as [|d w].
  - simpl. rewrite Hc. reflexivity.
  - rewrite IH by exact Hw. reflexivity.
Qed.

Lemma rstrip_app_word s w : is_word w = true -> rstrip (s +:+ w) = s +:+ w.
Proof.
  intros Hw. induction s as [|c s IH].
  - apply rstrip_word, Hw.
  - rewrite app_cons. simpl. rewrite IH.
    destruct (s +:+ w) eqn:E; [|reflexivity].
    destruct s; [|discriminate]. rewrite app_empty_l in E. subst w. discriminate.
Qed.

(** A text that [rstrip] leaves alone is empty or ends in a non-blank
    character; so are its suffixes. *)
Lemma rstrip_cons c s :
  rstrip (String c s) =
  match rstrip s with
  | EmptyString => if isspace c then EmptyString else String c EmptyString
  | r' => String c r'
  end.
Proof. reflexivity. Qed.

Lemma rstrip_idem s : rstrip (rstrip s) = rstrip s.
Proof.
  induction s as [|c s IH]; [reflexivity|].
  rewrite rstrip_cons. destruct (rstrip s) as [|d r] eqn:E.
  - destruct (isspace c) eqn:Hc; [reflexivity|]. simpl. rewrite Hc. reflexivity.
  - rewrite rstrip_cons, IH. reflexivity.
Qed.

Lemma rstrip_suffix a b : rstrip (a +:+ b) = a +:+ b -> rstrip b = b.
Proof.
  induction a as [|c a IH]; [auto|].
  rewrite app_cons. simpl. intros H.
  destruct (rstrip (a +:+ b)) as [|d r] eqn:E.
  - destruct (isspace c); [discriminate|].
    injection H as H. rewrite <- H in E.
    destruct a; [|discriminate]. rewrite app_empty_l in H. subst b. reflexivity.
  - injection H as H. apply IH. exact H.
Qed.

Lemma rstrip_tail c s : rstrip (String c s) = String c s -> rstrip s = s.
Proof. apply (rstrip_suffix (String c EmptyString) s). Qed.

Lemma rstrip_not_blank c : isspace c = true -> rstrip (String c EmptyString) <> String c EmptyString.
Proof. simpl. intros ->. discriminate. Qed.

Lemma strip_stable s : rstrip (strip s) = strip s.
Proof. apply rstrip_idem. Qed.

(** A text that starts with a non-blank character does not strip to
    nothing. *)
Lemma rstrip_head c s : isspace c = false -> exists r, rstrip (String c s) = String c r.
Proof.
  intros Hc. simpl. destruct (rstrip s); rewrite ?Hc; eauto.
Qed.

Lemma strip_head c s : isspace c = false -> strip (String c s) <> EmptyString.
Proof.
  intros Hc. unfold strip. simpl. rewrite Hc.
  destruct (rstrip_head c s Hc) as [r ->]. discriminate.
Qed.

(** [split] on two words separated by one blank. *)
Lemma rev_app_rev_app w acc acc' :
  String.rev_app (String.rev_app w acc) acc' = String.rev_app acc (w +:+ acc').
Proof.
  revert acc acc'. induction w as [|c w IH]; intros acc acc'; [reflexivity|].
  simpl. rewrite IH. reflexivity.
Qed.

Lemma split_go_word w cur rest :
  no_space w = true ->
  split_go cur (w +:+ rest) = split_go (String.rev_app w cur) rest.
Proof.
  revert cur. induction w as [|c w IH]; intros cur Hw; [reflexivity|].
  simpl in Hw. apply andb_prop in Hw as [Hc Hw]. apply negb_true_iff in Hc.
  rewrite app_cons. simpl. rewrite Hc. apply IH, Hw.
Qed.

Lemma rev_app_nonempty w cur : w <> EmptyString -> String.rev_app w cur <> EmptyString.
Proof.
  revert cur. induction w as [|c w IH]; intros cur H; [congruence|].
  simpl. destruct w as [|d w]; [discriminate|]. apply IH. discriminate.
Qed.

Lemma split_two_words a u :
  is_word a = true -> is_word u = true ->
  split (a +:+ " " +:+ u) = [a; u].
Proof.
  unfold is_word. intros [Ha Hsa]%andb_prop [Hu Hsu]%andb_prop.
  apply negb_true_iff, String.eqb_neq in Ha, Hu.
  unfold split. rewrite split_go_word by exact Hsa.
  rewrite app_cons, app_empty_l. simpl.
  destruct (String.rev_app a EmptyString) eqn:Ea.
  { exfalso. exact (rev_app_nonempty a EmptyString Ha Ea). }
  rewrite <- Ea. unfold String.rev. rewrite rev_app_rev_app. simpl.
  rewrite app_empty_r.
  replace u with (u +:+ EmptyString) at 1 by apply app_empty_r.
  rewrite split_go_word by exact Hsu. simpl.
  destruct (String.rev_app u EmptyString) eqn:Eu.
  { exfalso. exact (rev_app_nonempty u EmptyString Hu Eu). }
  rewrite <- Eu. unfold String.rev. rewrite rev_app_rev_app. simpl.
  rewrite app_empty_r. reflexivity.
Qed.

End StringFacts.

(** ** The matcher is sound for the declarative reading of patterns *)

Section RegexFacts.

Import PyStr Re.

Lemma strip_prefix_app p s rest : strip_prefix p s = Some rest -> s = p +:+ rest.
Proof.
  revert s. induction p as [|c p IH]; intros s H.
  - simpl in H. injection H as ->. reflexivity.
  - destruct s as [|d s]; simpl in H; [discriminate|].
    destruct (Ascii.eqb_spec c d) as [->|]; [|discriminate].
    rewrite app_cons. f_equal. apply IH, H.
Qed.

Lemma consumed_app s rest : consumed (s +:+ rest) rest = s.
Proof. apply take_app_length. Qed.

Lemma rep_sound {A} gr p inp (k : string -> option A) x :
  rep gr (in_class p) inp k = Some x ->
  exists s rest, inp = s +:+ rest /\ all_in p s = true /\ k rest = Some x.
Proof.
  induction inp as [|c inp IH]; simpl; intros H.
  - exists EmptyString, EmptyString. auto.
  - destruct (in_class p c) eqn:Hc.
    + assert (Hdeep : rep gr (in_class p) inp k = Some x ->
                      exists s rest, String c inp = s +:+ rest
                                     /\ all_in p s = true /\ k rest = Some x).
      { intros H'. destruct (IH H') as (s & rest & -> & Hs & Hk).
        exists (String c s), rest. rewrite app_cons. simpl. rewrite Hc, Hs. auto. }
      assert (Hstop : k (String c inp) = Some x ->
                      exists s rest, String c inp = s +:+ rest
                                     /\ all_in p s = true /\ k rest = Some x).
      { intros H'. exists EmptyString, (String c inp). auto. }
      destruct gr.
      * destruct (rep true (in_class p) inp k) eqn:E; [injection H as ->|]; auto.
      * destruct (k (String c inp)) eqn:E; [injection H as ->|]; auto.
    + exists EmptyString, (String c inp). auto.
Qed.

Theorem rx_sound {A} r : forall inp g (k : string -> captures -> option A) x,
  rx r inp g k = Some x ->
  exists s rest g', inp = s +:+ rest /\ matches r s g g' /\ k rest g' = Some x.
Proof.
  induction r as [|lit|p|gr plus p|r1 IH1 r2 IH2|r1 IH1 r2 IH2|i r1 IH1];
    intros inp g k x H; simpl in H.
  - exists EmptyString, inp, g. split; [reflexivity|]. split; [constructor|exact H].
  - destruct (strip_prefix lit inp) as [rest|] eqn:E; [|discriminate].
    exists lit, rest, g. split; [apply strip_prefix_app, E|].
    split; [constructor|exact H].
  - destruct inp as [|c rest]; [discriminate|].
    destruct (in_class p c) eqn:Hc; [|discriminate].
    exists (String c EmptyString), rest, g. split; [reflexivity|].
    split; [constructor; exact Hc|exact H].
  - destruct plus.
    + destruct inp as [|c inp]; [discriminate|].
      destruct (in_class p c) eqn:Hc; [|discriminate].
      apply rep_sound in H as (s & rest & -> & Hs & Hk).
      exists (String c s), rest, g. split; [reflexivity|].
      split; [|exact Hk]. constructor; [simpl; rewrite Hc; exact Hs|discriminate].
    + apply rep_sound in H as (s & rest & -> & Hs & Hk).
      exists s, rest, g. split; [reflexivity|].
      split; [|exact Hk]. constructor; [exact Hs|discriminate].
  - apply IH1 in H as (s1 & rest1 & g1 & -> & M1 & H).
    apply IH2 in H as (s2 & rest & g2 & -> & M2 & H).
    exists (s1 +:+ s2), rest, g2. split; [symmetry; apply app_assoc_str|].
    split; [econstructor; eauto|exact H].
  - destruct (rx r1 inp g k) eqn:E.
    + injection H as ->. apply IH1 in E as (s & rest & g' & -> & M & H).
      exists s, rest, g'. split; [reflexivity|]. split; [apply m_alt_l, M|exact H].
    + apply IH2 in H as (s & rest & g' & -> & M & H).
      exists s, rest, g'. split; [reflexivity|]. split; [apply m_alt_r, M|exact H].
  - apply IH1 in H as (s & rest & g' & -> & M & H).
    rewrite consumed_app in H.
    exists s, rest, ((i, s) :: g'). split; [reflexivity|].
    split; [constructor; exact M|exact H].
Qed.

(** [search] finds a match of the pattern somewhere in the text. *)
Lemma search_sound r text m :
  search r text = Some m ->
  exists pre s rest, text = pre +:+ s +:+ rest /\ matches r s [] m.
Proof.
  induction text as [|c text IH]; simpl; intros H.
  - destruct (rx r EmptyString [] (fun _ g => Some g)) eqn:E; [|discriminate].
    injection H as ->. apply rx_sound in E as (s & rest & g' & Ht & M & [= ->]).
    exists EmptyString, s, rest. auto.
  - destruct (rx r (String c text) [] (fun _ g => Some g)) eqn:E.
    + injection H as ->. apply rx_sound in E as (s & rest & g' & Ht & M & [= ->]).
      exists EmptyString, s, rest. auto.
    + destruct (IH H) as (pre & s & rest & -> & M).
      exists (String c pre), s, rest. auto.
Qed.

Lemma all_in_not_contains c cs s :
  In c cs -> all_in (CNot cs) s = true -> contains (String c EmptyString) s = false.
Proof.
  intros Hc. induction s as [|d s IH]; [reflexivity|].
  simpl. intros [Hd Hs]%andb_prop. apply negb_true_iff in Hd.
  destruct (Ascii.eqb_spec c d) as [->|]; [|auto].
  exfalso. assert (existsb (Ascii.eqb d) cs = true); [|congruence].
  apply existsb_exists. exists d. split; [exact Hc|apply Ascii.eqb_refl].
Qed.

(** *** What the matcher does at the end of the structured patterns

    The three patterns all end in [\s+(.+)].  On a text without trailing
    whitespace the greedy [\s+] takes the whole run of blanks and [(.+)]
    starts at the first character after it. *)

Lemma rx_seq {A} r1 r2 inp g (k : string -> captures -> option A) :
  rx (Seq r1 r2) inp g k = rx r1 inp g (fun rest g' => rx r2 rest g' k).
Proof. reflexivity. Qed.

Lemma rep_greedy_lstrip {A} inp (k : string -> option A) x :
  k (lstrip inp) = Some x -> rep true isspace inp k = Some x.
Proof.
  induction inp as [|c inp IH]; simpl; [auto|].
  destruct (isspace c); [|auto].
  intros H. rewrite (IH H). reflexivity.
Qed.

Lemma rep_total {A} gr p inp (k : string -> option A) :
  (forall rest, k rest <> None) -> rep gr p inp k <> None.
Proof.
  intros Hk. induction inp as [|c inp IH]; simpl; [apply Hk|].
  destruct (p c); [|apply Hk].
  destruct gr.
  - destruct (rep true p inp k); [discriminate|apply Hk].
  - destruct (k (String c inp)) eqn:E; [discriminate|]. exact IH.
Qed.

Lemma lstrip_stable_head s :
  rstrip s = s -> s <> EmptyString ->
  exists d r, lstrip s = String d r /\ isspace d = false.
Proof.
  induction s as [|c s IH]; [congruence|].
  intros Hs _. simpl. destruct (isspace c) eqn:Hc; [|eauto].
  apply IH.
  - eapply rstrip_tail, Hs.
  - intros ->. eapply rstrip_not_blank; eauto.
Qed.

Lemma content_tail_capture inp g x :
  rstrip inp = inp ->
  rx Bot.content_tail inp g (fun _ g' => Some g') = Some x ->
  exists c s, x = (3%nat, String c s) :: g /\ isspace c = false.
Proof.
  intros Hst H.
  cbv [Bot.content_tail Bot.seqs Bot.ws_plus fold_right] in H. rewrite rx_seq in H.
  destruct inp as [|c0 rest]; [discriminate|].
  cbn [rx in_class] in H. destruct (isspace c0) eqn:Hc0; [|discriminate].
  destruct (lstrip_stable_head rest) as (d & r & Hl & Hd).
  { eapply rstrip_tail, Hst. }
  { intros ->. eapply rstrip_not_blank; eauto. }
  assert (Hany : negb (Ascii.eqb d "010") = true).
  { destruct (Ascii.eqb_spec d "010") as [->|]; [discriminate Hd|reflexivity]. }
  set (kend := fun rest' : string => Some ((3%nat, consumed (String d r) rest') :: g)).
  destruct (rep true (fun c => negb (Ascii.eqb c "010")) r kend) as [y|] eqn:Ey.
  2: { exfalso. revert Ey. apply rep_total. intros ?. discriminate. }
  pose proof Ey as Ey'.
  apply (rep_sound true CAny) in Ey' as (s & rest' & -> & _ & Hk).
  unfold kend in Hk. rewrite <- app_cons, consumed_app in Hk. injection Hk as <-.
  erewrite rep_greedy_lstrip in H.
  - injection H as <-. eauto.
  - rewrite Hl. cbn [rx in_class]. rewrite Hany. exact Ey.
Qed.

(** [search] reports the match of the pattern at some suffix of the text. *)
Lemma search_suffix r text m :
  search r text = Some m ->
  exists pre suf, text = pre +:+ suf
                  /\ rx r suf [] (fun _ g => Some g) = Some m.
Proof.
  induction text as [|c text IH]; simpl; intros H.
  - destruct (rx r EmptyString [] (fun _ g => Some g)) eqn:E; [|discriminate].
    injection H as ->. exists EmptyString, EmptyString. auto.
  - destruct (rx r (String c text) [] (fun _ g => Some g)) eqn:E.
    + injection H as ->. exists EmptyString, (String c text). auto.
    + destruct (IH H) as (pre & suf & -> & Hm).
      exists (String c pre), suf. auto.
Qed.

End RegexFacts.

(** Inversion of [matches] along the shape of a pattern. *)
Ltac inv_matches :=
  repeat match goal with
    | H : Re.matches (Re.Seq _ _) _ _ _ |- _ => inversion H; subst; clear H
    | H : Re.matches (Re.Grp _ _) _ _ _ |- _ => inversion H; subst; clear H
    | H : Re.matches (Re.Lit _) _ _ _ |- _ => inversion H; subst; clear H
    | H : Re.matches Re.Eps _ _ _ |- _ => inversion H; subst; clear H
    | H : Re.matches (Re.Rep _ _ _) _ _ _ |- _ => inversion H; subst; clear H
    | H : Re.matches (Re.Alt _ _) _ _ _ |- _ => inversion H; subst; clear H
    end.

(** ** The phrase extractor *)

Section Extractor.

Import PyStr Re Bot Spec.

(** The captures of a match of the first or the third structured pattern:
    a keyword, a duration made of characters other than 't' and 'o', and
    the content. *)
Lemma time_first_captures s m :
  matches pattern_time_first s [] m ->
  exists kw d c, m = [(3, c); (2, d); (1, kw)]%nat
                 /\ (kw = "after" \/ kw = "in")
                 /\ all_in (CNot ["t"; "o"]%char) d = true.
Proof.
  cbv [pattern_time_first seqs alts ws_plus fold_right removelast List.last].
  intros M. inv_matches; eauto 10.
Qed.

(** One step along a pattern: the matcher's result comes from the rest of
    the pattern run on some suffix, which has no trailing whitespace if the
    text has none. *)
Ltac peel H Hst :=
  rewrite rx_seq in H;
  let M := fresh "M" in
  apply rx_sound in H as (? & ? & ? & -> & M & H);
  apply rstrip_suffix in Hst.

Lemma time_first_match text m :
  rstrip text = text ->
  search pattern_time_first text = Some m ->
  exists kw d c s, m = [(3, String c s); (2, d); (1, kw)]%nat
                   /\ (kw = "after" \/ kw = "in") /\ isspace c = false.
Proof.
  intros Hst H. apply search_suffix in H as (pre & suf & -> & H).
  apply rstrip_suffix in Hst.
  change pattern_time_first with
    (Seq (Lit "remind me ") (Seq (Grp 1 (alts ["after"; "in"])) (Seq ws_plus
      (Seq (Grp 2 (Rep false true (CNot ["t"; "o"]%char))) (Seq ws_plus
        (Seq (Lit "to") content_tail)))))) in H.
  do 6 peel H Hst.
  apply content_tail_capture in H as (c & s & -> & Hc); [|exact Hst].
  cbv [alts ws_plus fold_right removelast List.last] in *.
  inv_matches; eauto 10.
Qed.

Lemma content_first_match text m :
  rstrip text = text ->
  search pattern_content_first text = Some m ->
  exists g0 kw c s, m = [(3, String c s); (2, kw); (1, g0)]%nat
                    /\ isspace c = false.
Proof.
  intros Hst H. apply search_suffix in H as (pre & suf & -> & H).
  apply rstrip_suffix in Hst.
  change pattern_content_first with
    (Seq (Lit "remind me to") (Seq ws_plus (Seq (Grp 1 (Rep false true CAny))
      (Seq ws_plus
        (Seq (Grp 2 (alts ["after"; "in"; "at"; "tomorrow"; "today"; "next"]))
           content_tail))))) in H.
  do 5 peel H Hst.
  apply content_tail_capture in H as (c & s & -> & Hc); [|exact Hst].
  cbv [alts ws_plus fold_right removelast List.last] in *.
  inv_matches; eauto 10.
Qed.

Lemma time_lead_match text m :
  rstrip text = text ->
  search pattern_time_lead text = Some m ->
  exists kw d c s, m = [(3, String c s); (2, d); (1, kw)]%nat
                   /\ (kw = "after" \/ kw = "in") /\ isspace c = false.
Proof.
  intros Hst H. apply search_suffix in H as (pre & suf & -> & H).
  apply rstrip_suffix in Hst.
  change pattern_time_lead with
    (Seq (Grp 1 (alts ["after"; "in"])) (Seq ws_plus
      (Seq (Grp 2 (Rep false true (CNot ["t"; "o"]%char))) (Seq ws_plus
        (Seq (Lit "remind me to") content_tail))))) in H.
  do 5 peel H Hst.
  apply content_tail_capture in H as (c & s & -> & Hc); [|exact Hst].
  cbv [alts ws_plus fold_right removelast List.last] in *.
  inv_matches; eauto 10.
Qed.

Lemma time_lead_captures s m :
  matches pattern_time_lead s [] m ->
  exists kw d c, m = [(3, c); (2, d); (1, kw)]%nat
                 /\ (kw = "after" \/ kw = "in")
                 /\ all_in (CNot ["t"; "o"]%char) d = true.
Proof.
  cbv [pattern_time_lead seqs alts ws_plus fold_right removelast List.last].
  intros M. inv_matches; eauto 10.
Qed.

(** C10.  The first and the third structured pattern read the duration
    with the class [[^to]]: whatever text one of them matches in, the
    duration it captures contains neither 't' nor 'o', so a duration with
    one of these letters is never matched.  On "remind me after 2 hours to
    call mom" ("hours" has an 'o') neither matches; the remaining pattern
    does not match either, and the extraction falls through to the last
    tier. *)
Theorem duration_excludes_t_and_o :
  (forall text m,
      search pattern_time_first text = Some m \/ search pattern_time_lead text = Some m ->
      exists duration,
        group 2 m = Some duration
        /\ contains "t" duration = false /\ contains "o" duration = false)
  /\ search pattern_time_first example_hours = None
  /\ search pattern_time_lead example_hours = None
  /\ search pattern_content_first example_hours = None
  /\ extract_reminder_from_text example_hours
     = Info "after 2 hours to call mom" "in 1 hour".
Proof.
  split; [|repeat split; vm_compute; reflexivity].
  intros text m [H|H]; apply search_sound in H as (pre & s & rest & _ & M).
  - apply time_first_captures in M as (kw & d & c & -> & _ & Hd).
    exists d. split; [reflexivity|].
    split; apply (all_in_not_contains _ _ _) with (2 := Hd); simpl; auto.
  - apply time_lead_captures in M as (kw & d & c & -> & _ & Hd).
    exists d. split; [reflexivity|].
    split; apply (all_in_not_contains _ _ _) with (2 := Hd); simpl; auto.
Qed.

Lemma duration_excludes_t_and_o_witness :
  exists duration,
    group 2 [(3, "stop scrolling"); (2, "2 min"); (1, "after")]%nat = Some duration
    /\ contains "t" duration = false /\ contains "o" duration = false.
Proof.
  apply (proj1 duration_excludes_t_and_o "remind me after 2 min to stop scrolling").
  left. vm_compute. reflexivity.
Defined.

Lemma groups3 a b c : groups 3 [(3, c); (2, b); (1, a)]%nat = [a; b; c].
Proof. reflexivity. Qed.

(** The keyword split only returns a content of more than three
    characters. *)
Lemma keyword_split_content kws t info :
  keyword_split kws t = Some info -> content info <> EmptyString.
Proof.
  induction kws as [|kw kws IH]; simpl; [discriminate|].
  destruct (contains kw t); [|exact IH].
  destruct (negb _ && _)%bool eqn:E; [|exact IH].
  intros [= <-]. simpl.
  apply andb_prop in E as [E _]. apply negb_true_iff in E.
  apply String.eqb_neq, E.
Qed.

(** C9, where it fails: on the empty text the last tier falls back to the
    original text, which is empty too. *)
Lemma extract_empty_text_empty_content :
  content (extract_reminder_from_text "") = ""
  /\ content (extract_reminder_from_text "remind me to   in 5") = "".
Proof. split; vm_compute; reflexivity. Qed.

(** C9, amended.  The extractor always returns a pair, and the content is
    non-empty for every text that is not blank, unless the second
    structured pattern decides with a blank content capture. *)
Theorem extract_content_nonempty text :
  is_blank text = false ->
  blank_content_capture (strip (lower text)) = false ->
  content (extract_reminder_from_text text) <> "".
Proof.
  intros Hblank Hcap.
  unfold extract_reminder_from_text.
  set (t := strip (lower text)) in *.
  assert (Hst : rstrip t = t) by apply strip_stable.
  assert (Hlast : forall info,
             match_patterns [pattern_time_lead] t = Some info ->
             content info <> "").
  { intros info. cbn [match_patterns].
    destruct (search pattern_time_lead t) as [m3|] eqn:E3; [|discriminate].
    apply time_lead_match in E3 as (kw & d & c & s & -> & Hkw & Hc); [|exact Hst].
    rewrite groups3. destruct Hkw as [-> | ->]; cbv beta iota.
    - change (is_in "after" time_keywords) with true. cbv iota.
      intros [= <-]. cbn [content]. apply strip_head, Hc.
    - change (is_in "in" time_keywords) with true. cbv iota.
      intros [= <-]. cbn [content]. apply strip_head, Hc. }
  assert (Hrest : content
            match match_patterns [pattern_time_lead] t with
            | Some info => info
            | None =>
                match keyword_split split_keywords t with
                | Some info => info
                | None =>
                    let content := strip (sub_prefix lead_in_short t) in
                    Info (if negb (String.eqb content EmptyString)
                          then content else strip text) "in 1 hour"
                end
            end <> "").
  { destruct (match_patterns [pattern_time_lead] t) as [info|] eqn:E3; [eauto|].
    destruct (keyword_split split_keywords t) as [info|] eqn:E4.
    - eapply keyword_split_content, E4.
    - cbv zeta. cbn [content].
      destruct (String.eqb_spec (strip (sub_prefix lead_in_short t)) "") as [e|n];
        cbn [negb]; [apply String.eqb_neq, Hblank|exact n]. }
  unfold blank_content_capture in Hcap.
  unfold patterns. cbn [match_patterns] in Hrest |- *.
  destruct (search pattern_time_first t) as [m1|] eqn:E1.
  { apply time_first_match in E1 as (kw & d & c & s & -> & Hkw & Hc); [|exact Hst].
    rewrite groups3. destruct Hkw as [-> | ->]; cbv beta iota.
    - change (is_in "after" time_keywords) with true. cbv iota.
      cbn [content]. apply strip_head, Hc.
    - change (is_in "in" time_keywords) with true. cbv iota.
      cbn [content]. apply strip_head, Hc. }
  destruct (search pattern_content_first t) as [m2|] eqn:E2; [|exact Hrest].
  apply content_first_match in E2 as (g0 & kw & c & s & -> & Hc); [|exact Hst].
  rewrite groups3 in Hcap |- *. cbv beta iota in Hcap |- *.
  destruct (is_in g0 time_keywords); [cbn [content]; apply strip_head, Hc|].
  destruct (is_in kw time_keywords); [|exact Hrest].
  cbn [content]. unfold is_blank in Hcap. apply String.eqb_neq, Hcap.
Qed.

Lemma extract_content_nonempty_witness :
  content (extract_reminder_from_text "  Remind me  ") <> "".
Proof.
  apply (extract_content_nonempty "  Remind me  "); vm_compute; reflexivity.
Defined.

End Extractor.

(** ** The time expression resolver *)

Section Resolver.

Import PyStr Datetime Scheduler Spec.

Lemma bind_ok {A B} (a : A) (f : A -> res B) : (Ok a ≫= f) = f a.
Proof. reflexivity. Qed.

Lemma timedelta_value d s m h w :
  - 999999999 * us_per_day
    <= (d + 7 * w) * us_per_day + (s + 60 * m + 3600 * h) * us_per_second
    < 1000000000 * us_per_day ->
  timedelta d s m h w
  = Ok ((d + 7 * w) * us_per_day + (s + 60 * m + 3600 * h) * us_per_second).
Proof.
  intros [H1 H2]. unfold timedelta.
  apply Z.leb_le in H1. apply Z.ltb_lt in H2. rewrite H1, H2. reflexivity.
Qed.

Lemma add_value now td : 0 <= now + td < max_us -> add now td = Ok (now + td).
Proof.
  intros [H1 H2]. unfold add, in_range.
  apply Z.leb_le in H1. apply Z.ltb_lt in H2. rewrite H1, H2. reflexivity.
Qed.

(** [now + timedelta(unit=n)] for each of the five units. *)
Lemma shift_value now n k :
  representable now (n * unit_us k) ->
  (match k with
   | Seconds => timedelta 0 n 0 0 0
   | Minutes => timedelta 0 0 n 0 0
   | Hours => timedelta 0 0 0 n 0
   | Days => timedelta n 0 0 0 0
   | Weeks => timedelta 0 0 0 0 n
   end ≫= add now) = Ok (now + n * unit_us k).
Proof.
  intros [Htd Hsum].
  destruct k; rewrite timedelta_value;
    unfold unit_us, us_per_day, us_per_second in *;
    rewrite ?bind_ok; try lia;
    match goal with |- add now ?x = Ok (now + ?y) => replace x with y by lia end;
    apply add_value; unfold max_us, max_ordinal, us_per_day, us_per_second in *; lia.
Qed.

(** Outside the range of the types, the construction of the offset or the
    addition raises [OverflowError]. *)
Lemma shift_overflow now n k :
  ~ representable now (n * unit_us k) ->
  (match k with
   | Seconds => timedelta 0 n 0 0 0
   | Minutes => timedelta 0 0 n 0 0
   | Hours => timedelta 0 0 0 n 0
   | Days => timedelta n 0 0 0 0
   | Weeks => timedelta 0 0 0 0 n
   end ≫= add now) = Raise OverflowError.
Proof.
  intros Hrep. unfold representable in Hrep.
  destruct k; unfold timedelta, unit_us in *;
    (match goal with |- context [if ?c then _ else _] => destruct c eqn:E end;
     [|reflexivity]);
    rewrite bind_ok; unfold add, in_range;
    (match goal with |- context [if ?c then _ else _] => destruct c eqn:E' end;
     [|reflexivity]);
    exfalso; apply Hrep;
    apply andb_true_iff in E as [E1 E2]; apply andb_true_iff in E' as [E3 E4];
    apply Z.leb_le in E1, E3; apply Z.ltb_lt in E2, E4;
    unfold us_per_day, us_per_second in *; lia.
Qed.

(** The source tests for "second" or "sec", "minute" or "min": the longer
    word adds nothing to the shorter one. *)
Lemma contains_longer p q u :
  contains (p +:+ q) u || contains p u = contains p u.
Proof.
  destruct (contains p u) eqn:E; [apply orb_true_r|].
  rewrite orb_false_r. destruct (contains (p +:+ q) u) eqn:E'; [|reflexivity].
  apply contains_app_l in E'. congruence.
Qed.

(** The relative-offset block of [parse_time] recognises exactly the
    relative-offset phrases of the specification. *)
Lemma parse_relative_unfold now s :
  parse_relative now s =
  match relative_phrase s with
  | Some (n, k) =>
      Some (match k with
            | Seconds => timedelta 0 n 0 0 0
            | Minutes => timedelta 0 0 n 0 0
            | Hours => timedelta 0 0 0 n 0
            | Days => timedelta n 0 0 0 0
            | Weeks => timedelta 0 0 0 0 n
            end ≫= add now)
  | None => None
  end.
Proof.
  assert (Hparts : forall parts : list string,
    match parts with
    | p0 :: unit :: _ =>
        match int p0 with
        | Some amount =>
            if contains "second" unit || contains "sec" unit
            then Some (timedelta 0 amount 0 0 0 ≫= add now)
            else if contains "minute" unit || contains "min" unit
            then Some (timedelta 0 0 amount 0 0 ≫= add now)
            else if contains "hour" unit || contains "hr" unit
            then Some (timedelta 0 0 0 amount 0 ≫= add now)
            else if contains "day" unit
            then Some (timedelta amount 0 0 0 0 ≫= add now)
            else if contains "week" unit
            then Some (timedelta 0 0 0 0 amount ≫= add now)
            else None
        | None => None
        end
    | _ => None
    end =
    match
      match parts with
      | n :: u :: _ =>
          match int n, unit_of u with
          | Some amount, Some k => Some (amount, k)
          | _, _ => None
          end
      | _ => None
      end
    with
    | Some (n, k) =>
        Some (match k with
              | Seconds => timedelta 0 n 0 0 0
              | Minutes => timedelta 0 0 n 0 0
              | Hours => timedelta 0 0 0 n 0
              | Days => timedelta n 0 0 0 0
              | Weeks => timedelta 0 0 0 0 n
              end ≫= add now)
    | None => None
    end).
  { intros [|p0 [|u l]]; try reflexivity.
    destruct (int p0) as [amount|]; [|reflexivity].
    unfold unit_of.
    rewrite (contains_longer "sec" "ond"), (contains_longer "min" "ute"),
      (orb_comm (contains "hour" u)).
    repeat match goal with |- context [if ?b then _ else _] => destruct b end;
      reflexivity. }
  unfold relative_phrase, parse_relative.
  destruct (startswith "in " s); cbn [orb fmap option_fmap option_map].
  - rewrite Hparts. destruct (split (drop 3 s)) as [|? [|? ?]]; reflexivity.
  - destruct (startswith "after " s); cbn [fmap option_fmap option_map]; [|reflexivity].
    rewrite Hparts. destruct (split (drop 6 s)) as [|? [|? ?]]; reflexivity.
Qed.

Lemma parse_relative_none now s :
  relative_phrase s = None -> parse_relative now s = None.
Proof. intros H. rewrite parse_relative_unfold, H. reflexivity. Qed.

Lemma parse_relative_some now s n k :
  relative_phrase s = Some (n, k) ->
  representable now (n * unit_us k) ->
  parse_relative now s = Some (Ok (now + n * unit_us k)).
Proof.
  intros H Hrep. rewrite parse_relative_unfold, H. f_equal.
  apply shift_value, Hrep.
Qed.

Lemma parse_relative_overflow now s n k :
  relative_phrase s = Some (n, k) ->
  ~ representable now (n * unit_us k) ->
  parse_relative now s = Some (Raise OverflowError).
Proof.
  intros H Hrep. rewrite parse_relative_unfold, H. f_equal.
  apply shift_overflow, Hrep.
Qed.

(** C3, where it fails: four million days from now is beyond year 9999,
    and the addition raises [OverflowError]. *)
Lemma relative_offset_out_of_range :
  relative_phrase "in 4000000 days" = Some (4000000, Days)
  /\ parse_time a_morning "in 4000000 days" = Raise OverflowError
  /\ parse_time a_morning "in 4000000 days"
     <> Ok (a_morning + 4000000 * unit_us Days).
Proof. split; [|split]; vm_compute; [reflexivity|reflexivity|discriminate]. Qed.

Lemma normalise_relative kw a u :
  kw = "in" \/ kw = "after" -> is_word u = true ->
  strip (lower (kw +:+ " " +:+ a +:+ " " +:+ u))
  = kw +:+ " " +:+ lower a +:+ " " +:+ lower u.
Proof.
  intros Hkw Hu. rewrite !lower_app.
  replace (lower kw) with kw by (destruct Hkw as [-> | ->]; reflexivity).
  change (lower " ") with " ".
  assert (Hl : lstrip (kw +:+ " " +:+ lower a +:+ " " +:+ lower u)
               = kw +:+ " " +:+ lower a +:+ " " +:+ lower u)
    by (destruct Hkw as [-> | ->]; reflexivity).
  unfold strip. rewrite Hl.
  rewrite <- !app_assoc_str. apply rstrip_app_word.
  rewrite is_word_lower. exact Hu.
Qed.

Lemma relative_phrase_two_words kw a u N k :
  kw = "in" \/ kw = "after" -> is_word a = true -> is_word u = true ->
  int a = Some N -> unit_of u = Some k ->
  relative_phrase (kw +:+ " " +:+ a +:+ " " +:+ u) = Some (N, k).
Proof.
  intros Hkw Ha Hu HN Hk. unfold relative_phrase.
  destruct Hkw as [-> | ->].
  - change ("in" +:+ " " +:+ a +:+ " " +:+ u) with ("in " +:+ (a +:+ " " +:+ u)).
    rewrite startswith_app.
    change 3%nat with (String.length "in "). rewrite drop_app_length.
    cbn [fmap option_fmap option_map]. rewrite split_two_words by assumption.
    rewrite HN, Hk. reflexivity.
  - change ("after" +:+ " " +:+ a +:+ " " +:+ u) with ("after " +:+ (a +:+ " " +:+ u)).
    change (startswith "in " ("after " +:+ (a +:+ " " +:+ u))) with false.
    rewrite startswith_app.
    change 6%nat with (String.length "after "). rewrite drop_app_length.
    cbn [fmap option_fmap option_map]. rewrite split_two_words by assumption.
    rewrite HN, Hk. reflexivity.
Qed.

(** C3, amended.  For every phrase "in N unit" or "after N unit", where
    [int] reads the amount as the integer [N] (which needs it to have at
    most 4300 digits) and the unit token names the unit [k] by substring,
    [parse_time] returns exactly [now + N * k] when that instant is a
    datetime, and raises [OverflowError] when it is not. *)
Theorem relative_offset_resolves now kw a u N k :
  kw = "in" \/ kw = "after" ->
  is_word a = true -> is_word u = true ->
  int (lower a) = Some N ->
  unit_of (lower u) = Some k ->
  (representable now (N * unit_us k) ->
   parse_time now (kw +:+ " " +:+ a +:+ " " +:+ u) = Ok (now + N * unit_us k))
  /\ (~ representable now (N * unit_us k) ->
      parse_time now (kw +:+ " " +:+ a +:+ " " +:+ u) = Raise OverflowError).
Proof.
  intros Hkw Ha Hu HN Hk.
  assert (Hphrase : relative_phrase (kw +:+ " " +:+ lower a +:+ " " +:+ lower u)
                    = Some (N, k))
    by (apply relative_phrase_two_words; rewrite ?is_word_lower; assumption).
  split; intros Hrep; unfold parse_time; rewrite normalise_relative by assumption.
  - rewrite (parse_relative_some now _ N k Hphrase Hrep). reflexivity.
  - rewrite (parse_relative_overflow now _ N k Hphrase Hrep). reflexivity.
Qed.

Lemma relative_offset_resolves_witness :
  parse_time a_morning ("after" +:+ " " +:+ "90" +:+ " " +:+ "Mins")
  = Ok (a_morning + 90 * unit_us Minutes)
  /\ parse_time a_morning ("in" +:+ " " +:+ "4000000" +:+ " " +:+ "days")
     = Raise OverflowError.
Proof.
  split.
  - apply (relative_offset_resolves a_morning "after" "90" "Mins" 90 Minutes);
      [right; reflexivity|reflexivity|reflexivity|reflexivity|reflexivity|].
    unfold representable; vm_compute; repeat split; discriminate.
  - apply (relative_offset_resolves a_morning "in" "4000000" "days" 4000000 Days);
      [left; reflexivity|reflexivity|reflexivity|reflexivity|reflexivity|].
    unfold representable. vm_compute. intros [_ [_ H]]. discriminate H.
Defined.

(** *** Phrases with a time of day *)

Lemma time_range t : 0 <= time t < us_per_day.
Proof. unfold time. apply Z.mod_pos_bound. reflexivity. Qed.

Lemma localize_value t :
  us_per_day <= t -> t + us_per_day < max_us -> localize t = Ok t.
Proof.
  intros H1 H2. unfold localize.
  rewrite !add_value, !bind_ok; [reflexivity| |]; unfold us_per_day, us_per_second in *; lia.
Qed.

Lemma one_day : timedelta 1 0 0 0 0 = Ok us_per_day.
Proof. reflexivity. Qed.

(** The block for "today" and "at": the time of day on the day of [now],
    or on the day after when that has passed. *)
Lemma parse_today_value now s parsed :
  clock_reading now ->
  contains "at" s = true ->
  first_format ["%I%p"; "%I:%M%p"; "%H:%M"; "%H"; "%I:%M"] (time_part s) = Some parsed ->
  parse_today now s
  = Some (if time parsed <? time now
          then tomorrow_at now (time parsed) else today_at now (time parsed)).
Proof.
  intros [Hlo Hhi] Hat Hfmt. unfold parse_today.
  rewrite Hat, orb_true_r, Hfmt.
  pose proof (time_range parsed) as Ht. pose proof (time_range now) as Hn.
  set (tp := time parsed) in *.
  assert (Hnow : now = date now * us_per_day + time now).
  { unfold date, time. rewrite Z.mul_comm. apply Z.div_mod. discriminate. }
  assert (Hd : 1 <= date now).
  { unfold date. apply Z.div_le_lower_bound; [reflexivity|lia]. }
  unfold tomorrow_at, today_at, combine.
  rewrite localize_value by (unfold us_per_day, us_per_second in *; nia).
  destruct (Z.ltb_spec tp (time now)) as [Hlt|Hge].
  - destruct (Z.ltb_spec (date now * us_per_day + tp) now) as [_|?]; [|lia].
    rewrite one_day, bind_ok, add_value; [f_equal; lia|].
    unfold max_us, max_ordinal, us_per_day, us_per_second in *. lia.
  - destruct (Z.ltb_spec (date now * us_per_day + tp) now) as [?|_]; [lia|reflexivity].
Qed.

Lemma parse_time_at_clause now s parsed :
  clock_reading now ->
  relative_phrase (strip (lower s)) = None ->
  contains "tomorrow" (strip (lower s)) = false ->
  contains "at" (strip (lower s)) = true ->
  first_format ["%I%p"; "%I:%M%p"; "%H:%M"; "%H"; "%I:%M"]
               (time_part (strip (lower s))) = Some parsed ->
  parse_time now s
  = Ok (if time parsed <? time now
        then tomorrow_at now (time parsed) else today_at now (time parsed)).
Proof.
  intros Hclock Hrel Htom Hat Hfmt. unfold parse_time.
  rewrite (parse_relative_none _ _ Hrel), Htom.
  rewrite (parse_today_value now _ parsed Hclock Hat Hfmt). reflexivity.
Qed.

(** C4, where it fails: at 15:00 sharp the time has not passed, and the
    result is today at 15:00, not tomorrow. *)
Lemma three_pm_sharp_stays_today :
  time that_day_3pm = clock_time 15 0
  /\ parse_time that_day_3pm "today at 3pm" = Ok that_day_3pm
  /\ parse_time that_day_3pm "today at 3pm"
     <> Ok (tomorrow_at that_day_3pm (clock_time 15 0)).
Proof. split; [|split]; vm_compute; [reflexivity|reflexivity|discriminate]. Qed.

(** C4, amended.  "today at 3pm" is today at 15:00 while [now] is not past
    15:00, the case of [now] exactly 15:00 included (the result is then
    [now] itself), and tomorrow at 15:00 once [now] is past 15:00. *)
Theorem today_at_3pm now :
  clock_reading now ->
  (time now <= clock_time 15 0 ->
   parse_time now "today at 3pm" = Ok (today_at now (clock_time 15 0)))
  /\ (time now = clock_time 15 0 -> parse_time now "today at 3pm" = Ok now)
  /\ (clock_time 15 0 < time now ->
      parse_time now "today at 3pm" = Ok (tomorrow_at now (clock_time 15 0))).
Proof.
  intros Hclock.
  assert (H : parse_time now "today at 3pm"
              = Ok (if clock_time 15 0 <? time now
                    then tomorrow_at now (clock_time 15 0)
                    else today_at now (clock_time 15 0))).
  { apply (parse_time_at_clause now "today at 3pm"
             (default 0 (make 1900 1 1 15 0 0)) Hclock); reflexivity. }
  rewrite H. repeat split; intros Hcmp.
  - destruct (Z.ltb_spec (clock_time 15 0) (time now)); [lia|reflexivity].
  - destruct (Z.ltb_spec (clock_time 15 0) (time now)); [lia|].
    f_equal. unfold today_at, combine, date. rewrite <- Hcmp. unfold time.
    rewrite Z.mul_comm. symmetry. apply Z.div_mod. discriminate.
  - destruct (Z.ltb_spec (clock_time 15 0) (time now)); [reflexivity|lia].
Qed.

Lemma today_at_3pm_witness :
  parse_time a_morning "today at 3pm" = Ok (today_at a_morning (clock_time 15 0)).
Proof.
  apply (today_at_3pm a_morning); [split|]; vm_compute; discriminate.
Defined.

(** *** "tomorrow" *)

(** C6, where it fails: a phrase that begins as a relative offset is
    resolved by the first rule, whatever follows. *)
Lemma tomorrow_after_relative_offset :
  contains "tomorrow" "in 5 minutes tomorrow" = true
  /\ contains "at" "in 5 minutes tomorrow" = false
  /\ parse_time a_morning "in 5 minutes tomorrow" = Ok (a_morning + 5 * unit_us Minutes)
  /\ parse_time a_morning "in 5 minutes tomorrow" <> Ok (a_morning + us_per_day).
Proof. repeat split; vm_compute; try reflexivity; discriminate. Qed.

(** C6, amended.  For every phrase that contains "tomorrow", is not a
    relative-offset phrase, and has no "at" (or no time of day that parses
    after it), [parse_time] returns [now] plus one day. *)
Theorem tomorrow_same_time now phrase :
  clock_reading now ->
  contains "tomorrow" (strip (lower phrase)) = true ->
  relative_phrase (strip (lower phrase)) = None ->
  contains "at" (strip (lower phrase)) = false
  \/ first_format ["%I%p"; "%I:%M%p"; "%H:%M"; "%H"]
                  (time_part (strip (lower phrase))) = None ->
  parse_time now phrase = Ok (now + us_per_day).
Proof.
  intros [Hlo Hhi] Htom Hrel Hat. unfold parse_time.
  rewrite (parse_relative_none _ _ Hrel), Htom. unfold parse_tomorrow.
  rewrite one_day, bind_ok, add_value, bind_ok
    by (unfold max_us, max_ordinal, us_per_day, us_per_second in *; lia).
  destruct Hat as [-> | Hfmt]; [reflexivity|].
  rewrite Hfmt. destruct (contains "at" _); reflexivity.
Qed.

Lemma tomorrow_same_time_witness :
  parse_time a_morning "Tomorrow morning" = Ok (a_morning + us_per_day).
Proof.
  apply (tomorrow_same_time a_morning "Tomorrow morning");
    [split; vm_compute; discriminate|reflexivity|reflexivity|left; reflexivity].
Defined.

End Resolver.

(** ** From the text to the time *)

Section EndToEnd.

Import PyStr Datetime Scheduler Bot Spec.

(** C5.  The code at "don't forget meeting tomorrow at 3pm": " at " comes
    before " tomorrow " in the keyword list, so the text is cut at " at ",
    not at the leftmost keyword.  "tomorrow" stays in the content, the time
    phrase is "at 3pm", and in the morning that resolves to 15:00 of the
    same day, not of the next. *)
Lemma meeting_is_cut_at_at :
  extract_reminder_from_text example_meeting
  = Info "don't forget meeting tomorrow" "at 3pm"
  /\ extract_reminder_from_text example_meeting
     <> Info "don't forget meeting" "tomorrow at 3pm"
  /\ parse_time a_morning (time_str (extract_reminder_from_text example_meeting))
     = Ok that_day_3pm
  /\ parse_time a_morning (time_str (extract_reminder_from_text example_meeting))
     <> Ok (tomorrow_at a_morning (clock_time 15 0)).
Proof. repeat split; vm_compute; try reflexivity; discriminate. Qed.

(** What the extractor and the resolver do on that text, for every reading
    of the clock: no structured pattern matches; the keyword split tries
    " after ", " in ", " at ", " tomorrow ", " today " in this order and
    cuts at the first occurrence of the first one present, here " at "; the
    time phrase "at 3pm" resolves to the next 15:00, today while [now] is
    not past 15:00 and tomorrow after. *)
Theorem meeting_extraction :
  match_patterns patterns (strip (lower example_meeting)) = None
  /\ keyword_split [" after "; " in "] (strip (lower example_meeting)) = None
  /\ keyword_split split_keywords (strip (lower example_meeting))
     = Some (Info "don't forget meeting tomorrow" "at 3pm")
  /\ extract_reminder_from_text example_meeting
     = Info "don't forget meeting tomorrow" "at 3pm"
  /\ forall now, clock_reading now ->
       parse_time now (time_str (extract_reminder_from_text example_meeting))
       = Ok (if time now <=? clock_time 15 0
             then today_at now (clock_time 15 0)
             else tomorrow_at now (clock_time 15 0)).
Proof.
  split; [vm_compute; reflexivity|].
  split; [vm_compute; reflexivity|].
  split; [vm_compute; reflexivity|].
  split; [vm_compute; reflexivity|].
  intros now Hclock.
  change (time_str (extract_reminder_from_text example_meeting)) with "at 3pm".
  rewrite (parse_time_at_clause now "at 3pm" (default 0 (make 1900 1 1 15 0 0)) Hclock);
    try reflexivity.
  change (time (default 0 (make 1900 1 1 15 0 0))) with (clock_time 15 0).
  rewrite Z.leb_antisym. destruct (clock_time 15 0 <? time now); reflexivity.
Qed.

Lemma meeting_extraction_morning :
  parse_time a_morning (time_str (extract_reminder_from_text example_meeting))
  = Ok (today_at a_morning (clock_time 15 0)).
Proof.
  apply (proj2 (proj2 (proj2 (proj2 meeting_extraction))) a_morning).
  split; vm_compute; discriminate.
Defined.

End EndToEnd.

(** ** The job timeline *)

Section Timeline.

Import PyStr Datetime Scheduler Spec.

(** C2.  When the resolved time is strictly before the clock reading taken
    at acceptance, [schedule_reminder] returns the failure result for a
    past time and leaves the job store as it was. *)
Theorem past_time_is_rejected clock1 clock2 reminder_id user_id content time_str js t :
  parse_time clock1 time_str = Ok t ->
  t < clock2 ->
  schedule_reminder clock1 clock2 reminder_id user_id content time_str js
  = (Failed (PastTime t clock2), js)
  /\ success (fst (schedule_reminder clock1 clock2 reminder_id user_id content time_str js))
     = false.
Proof.
  intros Hparse Hlt. unfold schedule_reminder. rewrite Hparse.
  apply Z.ltb_lt in Hlt. rewrite Hlt. split; reflexivity.
Qed.

Lemma past_time_is_rejected_witness :
  schedule_reminder a_morning (a_morning + 1) 5 7 "call mom" "in -5 minutes" []
  = (Failed (PastTime (a_morning - 5 * unit_us Minutes) (a_morning + 1)), [])
  /\ success (fst (schedule_reminder a_morning (a_morning + 1) 5 7 "call mom"
                                     "in -5 minutes" [])) = false.
Proof.
  apply (past_time_is_rejected a_morning (a_morning + 1) 5 7 "call mom"
           "in -5 minutes" [] (a_morning - 5 * unit_us Minutes));
    vm_compute; reflexivity.
Defined.

(** A failed call never touches the store. *)
Lemma failed_schedule_store clock1 clock2 reminder_id user_id content time_str js err js' :
  schedule_reminder clock1 clock2 reminder_id user_id content time_str js
  = (Failed err, js') -> js' = js.
Proof.
  unfold schedule_reminder.
  destruct (parse_time clock1 time_str) as [t|e]; [|congruence].
  destruct (t <? clock2); [congruence|].
  destruct (add_job _ true js); congruence.
Qed.

(** *** At most one timer per id *)

Lemma has_id_eq id j : has_id id j = true <-> job_id j = id.
Proof. unfold has_id. apply String.eqb_eq. Qed.

Lemma get_job_none id js : get_job id js = None -> List.filter (has_id id) js = [].
Proof.
  unfold get_job. induction js as [|j js IH]; simpl; [reflexivity|].
  destruct (has_id id j); [discriminate|exact IH].
Qed.

Lemma get_job_some id js j :
  get_job id js = Some j -> List.filter (has_id id) js <> [].
Proof.
  unfold get_job. induction js as [|j' js IH]; simpl; [discriminate|].
  destruct (has_id id j'); [discriminate|exact IH].
Qed.

Lemma filter_update_other id j js :
  job_id j <> id ->
  List.filter (has_id id) (update_job j js) = List.filter (has_id id) js.
Proof.
  intros Hne. induction js as [|j' js IH]; simpl; [reflexivity|].
  destruct (has_id (job_id j) j') eqn:E.
  - apply has_id_eq in E.
    assert (has_id id j = false) as -> by (apply not_true_iff_false; rewrite has_id_eq; congruence).
    assert (has_id id j' = false) as -> by (apply not_true_iff_false; rewrite has_id_eq; congruence).
    exact IH.
  - rewrite IH. reflexivity.
Qed.

Lemma filter_update_same j js :
  List.filter (has_id (job_id j)) (update_job j js)
  = map (fun _ => j) (List.filter (has_id (job_id j)) js).
Proof.
  induction js as [|j' js IH]; simpl; [reflexivity|].
  destruct (has_id (job_id j) j') eqn:E; simpl.
  - assert (has_id (job_id j) j = true) as -> by (apply has_id_eq; reflexivity).
    simpl. rewrite IH. reflexivity.
  - rewrite E. exact IH.
Qed.

Lemma filter_length_le {A} (f : A -> bool) l : (length (List.filter f l) <= length l)%nat.
Proof. induction l as [|x l IH]; simpl; [lia|]. destruct (f x); simpl; lia. Qed.

Lemma filter_comm {A} (f g : A -> bool) l :
  List.filter f (List.filter g l) = List.filter g (List.filter f l).
Proof.
  induction l as [|x l IH]; simpl; [reflexivity|].
  destruct (f x) eqn:Ef, (g x) eqn:Eg; simpl; rewrite ?Ef, ?Eg, IH; reflexivity.
Qed.

Lemma unique_filter f js : unique_ids js -> unique_ids (List.filter f js).
Proof.
  intros H id. rewrite filter_comm.
  etransitivity; [apply filter_length_le|apply H].
Qed.

Lemma unique_add_job j js js' :
  unique_ids js -> add_job j true js = Ok js' -> unique_ids js'.
Proof.
  intros H. unfold add_job.
  destruct (get_job (job_id j) js) as [old|] eqn:E; intros [= <-]; intros id.
  - destruct (String.eqb_spec (job_id j) id) as [<-|Hne].
    + rewrite filter_update_same, length_map. apply H.
    + rewrite filter_update_other by exact Hne. apply H.
  - rewrite List.filter_app, length_app. simpl.
    destruct (has_id id j) eqn:Ej; simpl.
    + apply has_id_eq in Ej. subst id. rewrite (get_job_none _ _ E). simpl. lia.
    + specialize (H id). lia.
Qed.

Lemma unique_step js o : unique_ids js -> unique_ids (step js o).
Proof.
  intros H. destruct o as [c1 c2 rid uid content ts|rid|now]; simpl.
  - unfold schedule_reminder.
    destruct (parse_time c1 ts) as [t|e]; [|exact H].
    destruct (t <? c2); [exact H|].
    destruct (add_job _ true js) as [js'|e] eqn:E; [|exact H].
    simpl. eapply unique_add_job; eauto.
  - unfold cancel_reminder, remove_job.
    destruct (get_job _ js); simpl; [apply unique_filter|]; exact H.
  - apply unique_filter, H.
Qed.

Lemma unique_store_after history : unique_ids (store_after history).
Proof.
  unfold store_after.
  assert (G : forall js, unique_ids js -> unique_ids (fold_left step history js)).
  { induction history as [|o history IH]; intros js H; simpl; [exact H|].
    apply IH, unique_step, H. }
  apply G. intros id. simpl. lia.
Qed.

(** What an accepted call leaves in the store for its reminder. *)
Lemma scheduled_timer clock1 clock2 reminder_id user_id content time_str js t id js' :
  unique_ids js ->
  schedule_reminder clock1 clock2 reminder_id user_id content time_str js
  = (Scheduled t id, js') ->
  unique_ids js'
  /\ timers reminder_id js'
     = [Job (reminder_job_id reminder_id) t (user_id, content, reminder_id)].
Proof.
  intros Hu. unfold schedule_reminder.
  destruct (parse_time clock1 time_str) as [t'|e]; [|discriminate].
  destruct (t' <? clock2); [discriminate|].
  destruct (add_job _ true js) as [js''|e] eqn:E; [|discriminate].
  intros [= -> <- ->]. split; [eapply unique_add_job; eauto|].
  unfold timers. unfold add_job in E. cbn [job_id] in E.
  set (j := Job (reminder_job_id reminder_id) t (user_id, content, reminder_id)) in *.
  destruct (get_job (reminder_job_id reminder_id) js) as [old|] eqn:Eg;
    injection E as <-.
  - change (reminder_job_id reminder_id) with (job_id j).
    rewrite filter_update_same.
    pose proof (Hu (job_id j)) as Hle. apply get_job_some in Eg.
    change (reminder_job_id reminder_id) with (job_id j) in Eg.
    destruct (List.filter (has_id (job_id j)) js) as [|a [|b l]];
      [congruence|reflexivity|simpl in Hle; lia].
  - rewrite List.filter_app, (get_job_none _ _ Eg). simpl.
    assert (has_id (reminder_job_id reminder_id) j = true) as ->
      by (apply has_id_eq; reflexivity).
    reflexivity.
Qed.

(** *** Single-shot timers *)

Lemma deliveries_wakeup reminder_id now wakeups js :
  deliveries reminder_id (run_clock (now :: wakeups) js)
  = map (fun j => (now, j))
        (List.filter (fun j => (run_date j <=? now)
                               && (now - run_date j <=? misfire_grace_time))
                     (timers reminder_id js))
    ++ deliveries reminder_id (run_clock wakeups (snd (process_jobs now js))).
Proof.
  unfold deliveries at 1. cbn [run_clock process_jobs snd].
  rewrite List.filter_app. f_equal. unfold timers.
  rewrite filter_comm.
  generalize (List.filter (fun j => (run_date j <=? now)
                                    && (now - run_date j <=? misfire_grace_time)) js).
  induction l as [|a l IHl]; simpl; [reflexivity|].
  destruct (has_id _ a); simpl; rewrite IHl; reflexivity.
Qed.

Lemma timers_wakeup reminder_id now js :
  timers reminder_id (snd (process_jobs now js))
  = List.filter (fun j => negb (run_date j <=? now)) (timers reminder_id js).
Proof. unfold timers. cbn [process_jobs snd]. apply filter_comm. Qed.

Lemma no_timer_no_delivery reminder_id wakeups js :
  timers reminder_id js = [] -> deliveries reminder_id (run_clock wakeups js) = [].
Proof.
  revert js. induction wakeups as [|now wakeups IH]; intros js H; [reflexivity|].
  rewrite deliveries_wakeup, H, IH; [reflexivity|].
  rewrite timers_wakeup, H. reflexivity.
Qed.

Lemma single_timer_delivery reminder_id j wakeups js :
  timers reminder_id js = [j] ->
  deliveries reminder_id (run_clock wakeups js) = []
  \/ exists now, In now wakeups /\ run_date j <= now
                 /\ deliveries reminder_id (run_clock wakeups js) = [(now, j)].
Proof.
  revert js. induction wakeups as [|now wakeups IH]; intros js H; [left; reflexivity|].
  rewrite deliveries_wakeup, H.
  pose proof (timers_wakeup reminder_id now js) as Hlater. rewrite H in Hlater.
  cbn [List.filter] in Hlater |- *.
  destruct (Z.leb_spec (run_date j) now) as [Hle|Hgt]; cbn [negb andb] in Hlater |- *.
  - rewrite (no_timer_no_delivery reminder_id wakeups _ Hlater), app_nil_r.
    destruct (now - run_date j <=? misfire_grace_time); [|left; reflexivity].
    right. exists now. split; [left; reflexivity|]. split; [exact Hle|reflexivity].
  - destruct (IH _ Hlater) as [->|(now' & Hin & Hrun & ->)]; [left; reflexivity|].
    right. exists now'. split; [right; exact Hin|]. split; [exact Hrun|reflexivity].
Qed.

(** C1.  Whatever has happened to the scheduler, its store holds at most
    one timer for each reminder id.  After two accepted calls of
    [schedule_reminder] for the same id, the store holds exactly one timer
    for it, the second one, and whatever the wake-ups of the clock
    afterwards, that reminder is delivered at most once, by that timer, not
    before its run date. *)
Theorem reschedule_replaces_timer :
  (forall history reminder_id,
      (length (timers reminder_id (store_after history)) <= 1)%nat)
  /\ (forall history reminder_id c1 c2 user1 content1 phrase1 t1 id1 js1
             c1' c2' user2 content2 phrase2 t2 id2 js2,
        schedule_reminder c1 c2 reminder_id user1 content1 phrase1 (store_after history)
        = (Scheduled t1 id1, js1) ->
        schedule_reminder c1' c2' reminder_id user2 content2 phrase2 js1
        = (Scheduled t2 id2, js2) ->
        let timer := Job (reminder_job_id reminder_id) t2 (user2, content2, reminder_id) in
        timers reminder_id js2 = [timer]
        /\ forall wakeups,
            deliveries reminder_id (run_clock wakeups js2) = []
            \/ exists now, In now wakeups /\ t2 <= now
                           /\ deliveries reminder_id (run_clock wakeups js2)
                              = [(now, timer)]).
Proof.
  split.
  - intros history reminder_id. apply unique_store_after.
  - intros history reminder_id c1 c2 user1 content1 phrase1 t1 id1 js1
           c1' c2' user2 content2 phrase2 t2 id2 js2 H1 H2 timer.
    apply scheduled_timer in H1 as [Hu1 _]; [|apply unique_store_after].
    apply scheduled_timer in H2 as [Hu2 Ht]; [|exact Hu1].
    split; [exact Ht|].
    intros wakeups. apply (single_timer_delivery reminder_id timer wakeups js2 Ht).
Qed.

Lemma reschedule_replaces_timer_witness :
  timers 5 (snd (schedule_reminder a_morning a_morning 5 7 "call dad" "in 10 minutes"
                   (snd (schedule_reminder a_morning a_morning 5 7 "call mom"
                           "in 5 minutes" []))))
  = [Job (reminder_job_id 5) (a_morning + 10 * unit_us Minutes) (7, "call dad", 5)].
Proof.
  apply (proj2 reschedule_replaces_timer [] 5
           a_morning a_morning 7 "call mom" "in 5 minutes"
           (a_morning + 5 * unit_us Minutes) (reminder_job_id 5)
           (snd (schedule_reminder a_morning a_morning 5 7 "call mom" "in 5 minutes" []))
           a_morning a_morning 7 "call dad" "in 10 minutes"
           (a_morning + 10 * unit_us Minutes) (reminder_job_id 5)
           (snd (schedule_reminder a_morning a_morning 5 7 "call dad" "in 10 minutes"
                   (snd (schedule_reminder a_morning a_morning 5 7 "call mom"
                           "in 5 minutes" [])))));
    vm_compute; reflexivity.
Defined.

End Timeline.

(** ** Delivery and submission *)

Section Delivery.

Import PyStr Datetime Scheduler Bot Spec.

(** C7.  A fire makes one delivery attempt, and nothing after it is another
    attempt.  The write that marks the reminder sent and completed happens
    only after a successful delivery, and after a successful delivery it
    does happen: when the session works and the row is there, the write is
    the one thing that follows the delivery, and it sets the two flags of
    that row and nothing else (a missing row is logged as a warning, a
    failing session is logged and rolled back, and both leave the rows as
    they were).  When the delivery fails, the failure is logged and the
    rows are left as they were.  The timers are never touched. *)
Theorem mark_sent_follows_delivery send_ok db_ok user content reminder_id w :
  let w' := send_reminder_async send_ok db_ok user content reminder_id w in
  exists after,
    trace w' = trace w ++ SendMessage user (ReminderText content) send_ok :: after
    /\ (forall chat text ok, ~ In (SendMessage chat text ok) after)
    /\ (forall i, In (MarkSent i) after -> send_ok = true /\ i = reminder_id)
    /\ (send_ok = false -> after = [LogError] /\ rows w' = rows w)
    /\ (send_ok = true -> db_ok = true ->
        forall r, rows w !! reminder_id = Some r ->
          after = [MarkSent reminder_id]
          /\ rows w' = <[reminder_id := Row (user_id r) (row_content r)
                                            (reminder_time r) true true]> (rows w))
    /\ (send_ok = true -> db_ok = true -> rows w !! reminder_id = None ->
        after = [LogWarning] /\ rows w' = rows w)
    /\ (send_ok = true -> db_ok = false ->
        after = [LogError; Rollback] /\ rows w' = rows w)
    /\ jobs w' = jobs w.
Proof.
  unfold send_reminder_async.
  destruct send_ok;
    [destruct db_ok;
     [destruct (rows (emit (SendMessage user (ReminderText content) true) w)
                  !! reminder_id) as [r|] eqn:E|]|];
    cbn [emit set_rows trace rows jobs] in *; rewrite <- ?List.app_assoc; cbn [app].
  - exists [MarkSent reminder_id].
    split; [reflexivity|]. split; [intros chat text ok [?|[]]; discriminate|].
    split; [intros i [[= <-]|[]]; auto|]. split; [discriminate|].
    split; [intros _ _ r' Hr'; rewrite E in Hr'; injection Hr' as <-; auto|].
    split; [intros _ _ Hnone; congruence|].
    split; [discriminate|reflexivity].
  - exists [LogWarning].
    split; [reflexivity|]. split; [intros chat text ok [?|[]]; discriminate|].
    split; [intros i [?|[]]; discriminate|]. split; [discriminate|].
    split; [intros _ _ r' Hr'; congruence|].
    split; [auto|].
    split; [discriminate|reflexivity].
  - exists [LogError; Rollback].
    split; [reflexivity|]. split; [intros chat text ok [?|[?|[]]]; discriminate|].
    split; [intros i [?|[?|[]]]; discriminate|]. split; [discriminate|].
    split; [discriminate|]. split; [discriminate|].
    split; [auto|reflexivity].
  - exists [LogError].
    split; [reflexivity|]. split; [intros chat text ok [?|[]]; discriminate|].
    split; [intros i [?|[]]; discriminate|]. split; [auto|].
    split; [discriminate|]. split; [discriminate|].
    split; [discriminate|reflexivity].
Qed.

Lemma mark_sent_follows_delivery_witness :
  let w := World {[ 5 := Row 1 "call mom" a_morning false false ]} [] [] in
  let w' := send_reminder_async true true 7 "call mom" 5 w in
  exists after,
    trace w' = trace w ++ SendMessage 7 (ReminderText "call mom") true :: after
    /\ (forall chat text ok, ~ In (SendMessage chat text ok) after)
    /\ (forall i, In (MarkSent i) after -> true = true /\ i = 5)
    /\ (true = false -> after = [LogError] /\ rows w' = rows w)
    /\ (true = true -> true = true ->
        forall r, rows w !! 5 = Some r ->
          after = [MarkSent 5]
          /\ rows w' = <[5 := Row (user_id r) (row_content r)
                                  (reminder_time r) true true]> (rows w))
    /\ (true = true -> true = true -> rows w !! 5 = None ->
        after = [LogWarning] /\ rows w' = rows w)
    /\ (true = true -> true = false ->
        after = [LogError; Rollback] /\ rows w' = rows w)
    /\ jobs w' = jobs w.
Proof.
  exact (mark_sent_follows_delivery true true 7 "call mom" 5
           (World {[ 5 := Row 1 "call mom" a_morning false false ]} [] [])).
Defined.

(** C8.  When [schedule_reminder] fails for a submission, the row created
    for it is deleted again, so that the table is as it was before the
    submission, no job is left for it, and the user is told that the
    reminder could not be scheduled. *)
Theorem failed_submission_is_rolled_back
    uid telegram_id new_id placeholder clock1 clock2 text w err js :
  rows w !! new_id = None ->
  schedule_reminder clock1 clock2 new_id telegram_id
    (content (extract_reminder_from_text text))
    (time_str (extract_reminder_from_text text)) (jobs w) = (Failed err, js) ->
  let w' := create_reminder_from_message uid telegram_id new_id placeholder
              clock1 clock2 text w in
  rows w' = rows w
  /\ rows w' !! new_id = None
  /\ jobs w' = jobs w
  /\ trace w' = trace w ++ [ReplyText CouldNotParse].
Proof.
  intros Hfresh Hfail. pose proof (failed_schedule_store _ _ _ _ _ _ _ _ _ Hfail) as ->.
  unfold create_reminder_from_message.
  cbn [set_rows jobs rows trace]. rewrite Hfail.
  cbn [emit set_rows set_jobs jobs rows trace].
  rewrite delete_insert_id by exact Hfresh. auto.
Qed.

Lemma failed_submission_is_rolled_back_witness :
  let w := World ∅ [] [] in
  let w' := create_reminder_from_message 1 7 5 a_morning a_morning (a_morning + 1)
              "remind me to call mom in -5 minutes" w in
  rows w' = rows w
  /\ rows w' !! 5 = None
  /\ jobs w' = jobs w
  /\ trace w' = trace w ++ [ReplyText CouldNotParse].
Proof.
  apply (failed_submission_is_rolled_back 1 7 5 a_morning a_morning (a_morning + 1)
           "remind me to call mom in -5 minutes" (World ∅ [] [])
           (PastTime (a_morning - 5 * unit_us Minutes) (a_morning + 1)) []);
    vm_compute; reflexivity.
Defined.

End Delivery.

(** ** More on the job timeline: cancelling, listing, isolation *)

Section TimelineMore.

Import PyStr Datetime Scheduler Spec.

Lemma no_timer_get_job reminder_id js :
  timers reminder_id js = [] -> get_job (reminder_job_id reminder_id) js = None.
Proof.
  unfold timers, get_job. induction js as [|j js IH]; simpl; [reflexivity|].
  destruct (has_id _ j); [discriminate|exact IH].
Qed.

Lemma timer_get_job reminder_id js :
  timers reminder_id js <> [] ->
  exists j, get_job (reminder_job_id reminder_id) js = Some j.
Proof.
  unfold timers, get_job. induction js as [|j js IH]; simpl; [congruence|].
  destruct (has_id _ j); eauto.
Qed.

Lemma filter_filter_negb {A} (f : A -> bool) l :
  List.filter f (List.filter (fun x => negb (f x)) l) = [].
Proof.
  induction l as [|x l IH]; simpl; [reflexivity|].
  destruct (f x) eqn:E; simpl; rewrite ?E; exact IH.
Qed.

Lemma cancel_no_timer reminder_id js :
  timers reminder_id js = [] ->
  cancel_reminder reminder_id js = (false, js).
Proof.
  intros H. unfold cancel_reminder, remove_job.
  rewrite (no_timer_get_job _ _ H). reflexivity.
Qed.

(** X1.  Cancelling a reminder that has no timer (never scheduled, already
    fired, or already cancelled) returns [False] and leaves the store as
    it is. *)
Theorem cancel_without_timer reminder_id js :
  timers reminder_id js = [] ->
  cancel_reminder reminder_id js = (false, js).
Proof. apply cancel_no_timer. Qed.

Lemma cancel_without_timer_witness :
  cancel_reminder 5 [Job (reminder_job_id 6) a_morning (7, "call mom", 6)]
  = (false, [Job (reminder_job_id 6) a_morning (7, "call mom", 6)]).
Proof. apply (cancel_without_timer 5); vm_compute; reflexivity. Defined.

(** X2.  Cancelling a reminder after an accepted [schedule_reminder]
    returns [True] and removes its timer: whatever the wake-ups of the
    clock afterwards, the reminder is never delivered, and a second cancel
    returns [False] and changes nothing. *)
Theorem cancel_after_schedule history c1 c2 reminder_id user content phrase t id js1 :
  schedule_reminder c1 c2 reminder_id user content phrase (store_after history)
  = (Scheduled t id, js1) ->
  exists js2,
    cancel_reminder reminder_id js1 = (true, js2)
    /\ timers reminder_id js2 = []
    /\ (forall wakeups, deliveries reminder_id (run_clock wakeups js2) = [])
    /\ cancel_reminder reminder_id js2 = (false, js2).
Proof.
  intros H. apply scheduled_timer in H as [_ Ht]; [|apply unique_store_after].
  destruct (timer_get_job reminder_id js1) as [j Hj]; [rewrite Ht; discriminate|].
  unfold cancel_reminder at 1, remove_job. rewrite Hj.
  eexists. split; [reflexivity|].
  assert (Hnone : timers reminder_id
            (List.filter (fun j => negb (has_id (reminder_job_id reminder_id) j)) js1) = [])
    by apply filter_filter_negb.
  split; [exact Hnone|]. split.
  - intros wakeups. apply no_timer_no_delivery, Hnone.
  - apply cancel_no_timer, Hnone.
Qed.

Lemma cancel_after_schedule_witness :
  exists js2,
    cancel_reminder 5
      (snd (schedule_reminder a_morning a_morning 5 7 "call mom" "in 5 minutes" []))
    = (true, js2)
    /\ timers 5 js2 = []
    /\ (forall wakeups, deliveries 5 (run_clock wakeups js2) = [])
    /\ cancel_reminder 5 js2 = (false, js2).
Proof.
  apply (cancel_after_schedule [] a_morning a_morning 5 7 "call mom" "in 5 minutes"
           (a_morning + 5 * unit_us Minutes) (reminder_job_id 5)).
  vm_compute. reflexivity.
Defined.

(** Different reminders have different job ids. *)
Lemma reminder_job_id_inj a b : reminder_job_id a = reminder_job_id b -> a = b.
Proof.
  unfold reminder_job_id. intros H.
  apply (inj (String.append "reminder_")) in H. apply (inj pretty) in H. exact H.
Qed.

Lemma other_id reminder_id other j :
  reminder_id <> other -> job_id j = reminder_job_id reminder_id ->
  has_id (reminder_job_id other) j = false.
Proof.
  intros Hne Hj. apply not_true_iff_false. rewrite has_id_eq, Hj.
  intros H. apply reminder_job_id_inj in H. congruence.
Qed.

(** X3.  Scheduling or cancelling one reminder never touches the timer of
    another: for two different reminder ids, the timers of the one are the
    same before and after [schedule_reminder] or [cancel_reminder] on the
    other. *)
Theorem other_timers_untouched reminder_id other c1 c2 user content phrase js :
  reminder_id <> other ->
  timers other (snd (schedule_reminder c1 c2 reminder_id user content phrase js))
  = timers other js
  /\ timers other (snd (cancel_reminder reminder_id js)) = timers other js.
Proof.
  intros Hne. split.
  - unfold schedule_reminder.
    destruct (parse_time c1 phrase) as [t|e]; [|reflexivity].
    destruct (t <? c2); [reflexivity|].
    unfold add_job. cbn [job_id].
    destruct (get_job (reminder_job_id reminder_id) js); cbn [snd]; unfold timers.
    + apply filter_update_other. cbn [job_id].
      intros H. apply reminder_job_id_inj in H. congruence.
    + rewrite List.filter_app. cbn [List.filter].
      rewrite (other_id reminder_id other) by (auto; reflexivity).
      apply app_nil_r.
  - unfold cancel_reminder, remove_job.
    destruct (get_job (reminder_job_id reminder_id) js) as [old|]; [|reflexivity].
    cbn [snd]. unfold timers. revert Hne.
    clear. intros Hne. induction js as [|x js IH]; [reflexivity|]. cbn [List.filter].
    destruct (has_id (reminder_job_id reminder_id) x) eqn:E; cbn [negb List.filter].
    + apply has_id_eq in E. rewrite (other_id reminder_id other x Hne E). exact IH.
    + destruct (has_id (reminder_job_id other) x); rewrite IH; reflexivity.
Qed.

Lemma other_timers_untouched_witness :
  timers 6 (snd (schedule_reminder a_morning a_morning 5 7 "call dad" "in 5 minutes"
                   [Job (reminder_job_id 6) a_morning (7, "call mom", 6)]))
  = timers 6 [Job (reminder_job_id 6) a_morning (7, "call mom", 6)]
  /\ timers 6 (snd (cancel_reminder 5 [Job (reminder_job_id 6) a_morning (7, "call mom", 6)]))
     = timers 6 [Job (reminder_job_id 6) a_morning (7, "call mom", 6)].
Proof. apply (other_timers_untouched 5 6). discriminate. Defined.

(** X4.  After an accepted [schedule_reminder], the listing of scheduled
    reminders has exactly one entry under the reminder's job id, and it
    shows the resolved time and the callback arguments of that call. *)
Theorem listing_after_schedule history c1 c2 reminder_id user content phrase t id js1 :
  schedule_reminder c1 c2 reminder_id user content phrase (store_after history)
  = (Scheduled t id, js1) ->
  id = reminder_job_id reminder_id
  /\ List.filter (fun e => String.eqb (fst (fst e)) id) (get_scheduled_reminders js1)
     = [(id, t, (user, content, reminder_id))].
Proof.
  intros H.
  assert (Hid : id = reminder_job_id reminder_id).
  { revert H. unfold schedule_reminder.
    destruct (parse_time c1 phrase) as [t'|e]; [|discriminate].
    destruct (t' <? c2); [discriminate|].
    destruct (add_job _ true _); [|discriminate]. congruence. }
  split; [exact Hid|]. subst id.
  apply scheduled_timer in H as [_ Ht]; [|apply unique_store_after].
  unfold get_scheduled_reminders, timers in *.
  assert (G : forall js,
    List.filter (fun e : string * datetime * (Z * string * Z) =>
                   String.eqb (fst (fst e)) (reminder_job_id reminder_id))
                (map (fun j => (job_id j, run_date j, job_args j)) js)
    = map (fun j => (job_id j, run_date j, job_args j))
          (List.filter (has_id (reminder_job_id reminder_id)) js)).
  { induction js as [|j js IH]; [reflexivity|]. cbn [map List.filter fst].
    unfold has_id at 1. destruct (String.eqb (job_id j) _); cbn [map]; rewrite IH; reflexivity. }
  rewrite G, Ht. reflexivity.
Qed.

Lemma listing_after_schedule_witness :
  reminder_job_id 5 = reminder_job_id 5
  /\ List.filter (fun e => String.eqb (fst (fst e)) (reminder_job_id 5))
       (get_scheduled_reminders
          (snd (schedule_reminder a_morning a_morning 5 7 "call mom" "in 5 minutes" [])))
     = [(reminder_job_id 5, a_morning + 5 * unit_us Minutes, (7, "call mom", 5))].
Proof.
  apply (listing_after_schedule [] a_morning a_morning 5 7 "call mom" "in 5 minutes").
  vm_compute. reflexivity.
Defined.

End TimelineMore.

(** ** More on the resolver and on acceptance *)

Section ResolverMore.

Import PyStr Datetime Scheduler Spec.

Lemma timedelta_raises d s m h w e : timedelta d s m h w = Raise e -> e = OverflowError.
Proof. unfold timedelta. destruct (_ && _)%bool; congruence. Qed.

Lemma add_raises now td e : add now td = Raise e -> e = OverflowError.
Proof. unfold add. destruct (in_range _); congruence. Qed.

Lemma bind_raises {A B} (m : res A) (f : A -> res B) e :
  (m ≫= f) = Raise e ->
  m = Raise e \/ exists a, m = Ok a /\ f a = Raise e.
Proof. destruct m as [a|e']; cbn; [eauto|intros [= ->]; auto]. Qed.

Lemma shift_raises now (m : res Z) e :
  (forall e', m = Raise e' -> e' = OverflowError) ->
  (m ≫= add now) = Raise e -> e = OverflowError.
Proof.
  intros Hm H. apply bind_raises in H as [H|(a & _ & H)]; [auto|].
  eapply add_raises, H.
Qed.

Lemma localize_raises t e : localize t = Raise e -> e = OverflowError.
Proof.
  unfold localize. intros H.
  apply bind_raises in H as [H|(a & _ & H)]; [eapply add_raises, H|].
  apply bind_raises in H as [H|(b & _ & H)]; [eapply add_raises, H|discriminate].
Qed.

Lemma parse_standard_raises fmts s e :
  parse_standard fmts s = Some (Raise e) -> e = OverflowError.
Proof.
  induction fmts as [|fmt fmts IH]; simpl; [discriminate|].
  destruct (strptime s fmt); [|exact IH].
  intros [= H]. eapply localize_raises, H.
Qed.

Lemma parse_time_raises now phrase e :
  parse_time now phrase = Raise e -> e = OverflowError.
Proof.
  unfold parse_time. rewrite parse_relative_unfold.
  destruct (relative_phrase _) as [[n k]|].
  { apply shift_raises. intros e'. destruct k; apply timedelta_raises. }
  destruct (contains "tomorrow" _).
  { unfold parse_tomorrow. intros H.
    apply bind_raises in H as [H|(td & _ & H)]; [eapply timedelta_raises, H|].
    apply bind_raises in H as [H|(tm & _ & H)]; [eapply add_raises, H|].
    destruct (contains "at" _); [|discriminate].
    destruct (first_format _ _); [|discriminate].
    destruct (localize _); discriminate. }
  destruct (parse_today now _); [discriminate|].
  destruct (parse_standard _ _) as [r|] eqn:E.
  { intros ->. eapply parse_standard_raises, E. }
  apply shift_raises. intros e'. apply timedelta_raises.
Qed.

(** X5.  Whatever the phrase and the clock, the only exception that
    [parse_time] lets out is [OverflowError]: a text that is not a number
    or not a time never makes it fail, it makes it fall through to the
    next rule. *)
Theorem parse_time_only_overflows now phrase e :
  parse_time now phrase = Raise e -> e = OverflowError.
Proof. apply parse_time_raises. Qed.

Lemma parse_time_only_overflows_witness :
  parse_time a_morning "in 4000000 days" = Raise OverflowError
  /\ OverflowError = OverflowError.
Proof.
  split; [vm_compute; reflexivity|].
  apply (parse_time_only_overflows a_morning "in 4000000 days" OverflowError).
  vm_compute. reflexivity.
Defined.

Lemma add_job_replace_ok j js : exists js', add_job j true js = Ok js'.
Proof. unfold add_job. destruct (get_job _ js); eauto. Qed.

(** X6.  [schedule_reminder] accepts a call exactly when the phrase
    resolves to a time that is not before the clock reading of the check;
    it then reports that time and the job id of the reminder.  A timer
    already stored under the id never makes it fail: the only failures are
    a time in the past and an [OverflowError] of the resolver. *)
Theorem schedule_accepts_iff clock1 clock2 reminder_id user content phrase js :
  (forall t,
      (exists js', schedule_reminder clock1 clock2 reminder_id user content phrase js
                   = (Scheduled t (reminder_job_id reminder_id), js'))
      <-> parse_time clock1 phrase = Ok t /\ clock2 <= t)
  /\ (forall t id js',
         schedule_reminder clock1 clock2 reminder_id user content phrase js
         = (Scheduled t id, js') -> id = reminder_job_id reminder_id)
  /\ (forall err js',
         schedule_reminder clock1 clock2 reminder_id user content phrase js
         = (Failed err, js') ->
         (exists t, err = PastTime t clock2 /\ parse_time clock1 phrase = Ok t /\ t < clock2)
         \/ err = Exception OverflowError).
Proof.
  unfold schedule_reminder.
  destruct (parse_time clock1 phrase) as [t0|e] eqn:Hp.
  2: { apply parse_time_raises in Hp as ->.
       split; [|split].
       - intros t. split; [intros [js' H]; discriminate|intros [H _]; discriminate].
       - discriminate.
       - intros err js' [= <- _]. right. reflexivity. }
  destruct (Z.ltb_spec t0 clock2) as [Hlt|Hge].
  { split; [|split].
    - intros t. split; [intros [js' H]; discriminate|intros [[= ->] H]; lia].
    - discriminate.
    - intros err js' [= <- _]. left. exists t0. auto. }
  destruct (add_job_replace_ok
              (Job (reminder_job_id reminder_id) t0 (user, content, reminder_id)) js)
    as [js1 ->].
  split; [|split].
  - intros t. split.
    + intros [js' [= -> _]]. auto.
    + intros [[= ->] _]. eauto.
  - intros t id js' [= _ <- _]. reflexivity.
  - discriminate.
Qed.

(** X7.  A relative offset with a negative amount is never accepted: the
    resolved time lies before the clock, the call fails as a past time and
    the store is left as it is. *)
Theorem negative_offset_is_rejected
    clock1 clock2 reminder_id user content kw a u N k js :
  kw = "in" \/ kw = "after" ->
  is_word a = true -> is_word u = true ->
  int (lower a) = Some N -> unit_of (lower u) = Some k ->
  representable clock1 (N * unit_us k) ->
  N < 0 -> clock1 <= clock2 ->
  schedule_reminder clock1 clock2 reminder_id user content
                    (kw +:+ " " +:+ a +:+ " " +:+ u) js
  = (Failed (PastTime (clock1 + N * unit_us k) clock2), js).
Proof.
  intros Hkw Ha Hu HN Hk Hrep Hneg Hclock. unfold schedule_reminder.
  unfold parse_time. rewrite normalise_relative by assumption.
  rewrite (parse_relative_some clock1 _ N k);
    [|apply relative_phrase_two_words; rewrite ?is_word_lower; assumption|exact Hrep].
  assert (0 < unit_us k) by (destruct k; reflexivity).
  destruct (Z.ltb_spec (clock1 + N * unit_us k) clock2); [reflexivity|nia].
Qed.

Lemma negative_offset_is_rejected_witness :
  schedule_reminder a_morning a_morning 5 7 "call mom"
                    ("in" +:+ " " +:+ "-5" +:+ " " +:+ "minutes") []
  = (Failed (PastTime (a_morning + -5 * unit_us Minutes) a_morning), []).
Proof.
  apply (negative_offset_is_rejected a_morning a_morning 5 7 "call mom"
           "in" "-5" "minutes" (-5) Minutes []);
    [left; reflexivity|reflexivity|reflexivity|reflexivity|reflexivity
    | |reflexivity|vm_compute; discriminate].
  unfold representable; vm_compute; repeat split; discriminate.
Defined.

(** *** Times of day *)

Lemma date_plus_day now : date (now + us_per_day) = date now + 1.
Proof.
  unfold date. replace (now + us_per_day) with (now + 1 * us_per_day) by lia.
  apply Z.div_add. discriminate.
Qed.

Lemma time_combine d tod : 0 <= tod < us_per_day -> time (combine d tod) = tod.
Proof.
  intros H. unfold time, combine.
  rewrite Z.add_comm, Z.mod_add by discriminate. apply Z.mod_small, H.
Qed.

(** X8.  A phrase with a time of day after "at" (and without "tomorrow")
    resolves to the next instant with that time of day: it is never before
    [now] and less than a day after it. *)
Theorem at_clause_is_next_occurrence now phrase parsed :
  clock_reading now ->
  relative_phrase (strip (lower phrase)) = None ->
  contains "tomorrow" (strip (lower phrase)) = false ->
  contains "at" (strip (lower phrase)) = true ->
  first_format ["%I%p"; "%I:%M%p"; "%H:%M"; "%H"; "%I:%M"]
               (time_part (strip (lower phrase))) = Some parsed ->
  exists t, parse_time now phrase = Ok t
            /\ time t = time parsed
            /\ now <= t < now + us_per_day.
Proof.
  intros Hclock Hrel Htom Hat Hfmt.
  rewrite (parse_time_at_clause now phrase parsed Hclock Hrel Htom Hat Hfmt).
  pose proof (time_range parsed) as Ht. pose proof (time_range now) as Hn.
  assert (Hnow : now = date now * us_per_day + time now).
  { unfold date, time. rewrite Z.mul_comm. apply Z.div_mod. discriminate. }
  eexists. split; [reflexivity|].
  destruct (Z.ltb_spec (time parsed) (time now));
    unfold tomorrow_at, today_at;
    (split; [apply time_combine, Ht|unfold combine; lia]).
Qed.

Lemma at_clause_is_next_occurrence_witness :
  exists t, parse_time a_morning "At 9:15" = Ok t
            /\ time t = clock_time 9 15
            /\ a_morning <= t < a_morning + us_per_day.
Proof.
  apply (at_clause_is_next_occurrence a_morning "At 9:15"
           (default 0 (make 1900 1 1 9 15 0)));
    [split; vm_compute; discriminate|reflexivity..].
Defined.

(** X9.  A phrase with "tomorrow" and a time of day after "at" resolves to
    that time of day on the day after [now], whatever the time of day of
    [now]. *)
Theorem tomorrow_at_time now phrase parsed :
  clock_reading now ->
  contains "tomorrow" (strip (lower phrase)) = true ->
  relative_phrase (strip (lower phrase)) = None ->
  contains "at" (strip (lower phrase)) = true ->
  first_format ["%I%p"; "%I:%M%p"; "%H:%M"; "%H"]
               (time_part (strip (lower phrase))) = Some parsed ->
  parse_time now phrase = Ok (tomorrow_at now (time parsed)).
Proof.
  intros [Hlo Hhi] Htom Hrel Hat Hfmt. unfold parse_time.
  rewrite (parse_relative_none _ _ Hrel), Htom. unfold parse_tomorrow.
  rewrite one_day, bind_ok, add_value, bind_ok
    by (unfold max_us, max_ordinal, us_per_day, us_per_second in *; lia).
  rewrite Hat, Hfmt, date_plus_day.
  pose proof (time_range parsed) as Ht.
  assert (Hd : 1 <= date now).
  { unfold date. apply Z.div_le_lower_bound; [reflexivity|lia]. }
  assert (Hnow : now = date now * us_per_day + time now).
  { unfold date, time. rewrite Z.mul_comm. apply Z.div_mod. discriminate. }
  pose proof (time_range now) as Hn.
  unfold tomorrow_at, combine.
  rewrite localize_value; [reflexivity| |];
    unfold max_us, max_ordinal, us_per_day, us_per_second in *; nia.
Qed.

Lemma tomorrow_at_time_witness :
  parse_time a_morning "Tomorrow at 9" = Ok (tomorrow_at a_morning (clock_time 9 0)).
Proof.
  apply (tomorrow_at_time a_morning "Tomorrow at 9"
           (default 0 (make 1900 1 1 9 0 0)));
    [split; vm_compute; discriminate|reflexivity..].
Defined.

End ResolverMore.

(** ** Phrases that no rule recognises *)

Section DefaultRule.

Import PyStr Re Datetime Scheduler Spec.

Lemma lstrip_first s c r : lstrip s = String c r -> isspace c = false.
Proof.
  induction s as [|d s IH]; simpl; [discriminate|].
  destruct (isspace d) eqn:E; [exact IH|]. intros [= <- _]. exact E.
Qed.

Lemma rstrip_first s c r : rstrip s = String c r -> exists r', s = String c r'.
Proof.
  destruct s as [|d s]; [discriminate|]. rewrite rstrip_cons.
  destruct (rstrip s); [destruct (isspace d); [discriminate|]|]; intros [= <- _]; eauto.
Qed.

Lemma strip_first s c r : strip s = String c r -> isspace c = false.
Proof.
  unfold strip. intros H. apply rstrip_first in H as [r' H].
  eapply lstrip_first, H.
Qed.

(** A character that a digit class or a digit range accepts is a digit. *)
Lemma range_is_digit lo hi c :
  (48 <= nat_of_ascii lo)%nat -> (nat_of_ascii hi <= 57)%nat ->
  in_class (CRange lo hi) c = true -> is_digit c = true.
Proof.
  intros Hlo Hhi. unfold in_class, is_digit.
  intros [H1 H2]%andb_prop. apply Nat.leb_le in H1, H2.
  apply andb_true_intro. split; apply Nat.leb_le; lia.
Qed.

(** The three directives that open the standard formats only match a text
    that begins with a digit or a blank. *)
Lemma opens_date_app s1 s2 : opens_date s1 -> opens_date (s1 +:+ s2).
Proof. intros (c & t & -> & H). exists c, (t +:+ s2). auto. Qed.

Ltac digit_range :=
  match goal with
  | H : in_class (CRange _ _) ?c = true |- _ =>
      left; apply (range_is_digit _ _ _) with (3 := H); vm_compute; lia
  | H : in_class CDigit ?c = true |- _ => left; exact H
  end.

Lemma year_opens s g g' : matches (directive_re D_Y) s g g' -> opens_date s.
Proof.
  cbv [directive_re digit]. intros M. inv_matches.
  inversion H1; subst. eexists _, _. split; [reflexivity|digit_range].
Qed.

Lemma day_opens s g g' : matches (directive_re D_d) s g g' -> opens_date s.
Proof.
  cbv [directive_re digit rng]. intros M. inv_matches;
    repeat match goal with
      | H : matches (Cls _) _ _ _ |- _ => inversion H; subst; clear H
      end;
    eexists _, _; (split; [reflexivity|]);
    first [digit_range | left; reflexivity | right; reflexivity].
Qed.

Lemma month_opens s g g' : matches (directive_re D_m) s g g' -> opens_date s.
Proof.
  cbv [directive_re digit rng]. intros M. inv_matches;
    repeat match goal with
      | H : matches (Cls _) _ _ _ |- _ => inversion H; subst; clear H
      end;
    eexists _, _; (split; [reflexivity|]);
    first [digit_range | left; reflexivity].
Qed.

Lemma format_opens d ds data rest g :
  (forall s h h', matches (directive_re d) s h h' -> opens_date s) ->
  re_match (format_re (d :: ds)) data = Some (rest, g) -> opens_date data.
Proof.
  intros Hd. unfold re_match. cbn [format_re fold_right]. rewrite rx_seq.
  intros H. apply rx_sound in H as (s & rest' & g' & -> & M & _).
  apply opens_date_app. eapply Hd, M.
Qed.

Lemma strptime_standard_opens data fmt parsed :
  In fmt standard_formats -> strptime data fmt = Some parsed -> opens_date data.
Proof.
  intros Hin. unfold strptime.
  destruct Hin as [<-|[<-|[<-|[<-|[]]]]];
    match goal with
    | |- context [parse_format ?f] =>
        let v := eval vm_compute in (parse_format f) in
        change (parse_format f) with v
    end;
    cbn [mbind option_bind collapse_ws];
    match goal with
    | |- context [re_match ?r data] =>
        destruct (re_match r data) as [[rest g]|] eqn:E; [|discriminate]
    end;
    intros _; revert E; apply format_opens;
    [apply year_opens|apply year_opens|apply day_opens|apply month_opens].
Qed.

Lemma parse_standard_none s :
  ~ opens_date s -> parse_standard standard_formats s = None.
Proof.
  intros Hs.
  assert (G : forall fmts, (forall f, In f fmts -> In f standard_formats) ->
                           parse_standard fmts s = None).
  { induction fmts as [|f fmts IH]; intros Hsub; [reflexivity|]. simpl.
    destruct (strptime s f) eqn:E.
    - exfalso. apply Hs. eapply strptime_standard_opens; [apply Hsub; left; reflexivity|exact E].
    - apply IH. intros f' Hf'. apply Hsub. right. exact Hf'. }
  apply G. auto.
Qed.

Lemma stripped_not_date s :
  begins_with_digit (strip s) = false -> ~ opens_date (strip s).
Proof.
  intros Hd (c & t & E & [H|H]).
  - rewrite E in Hd. simpl in Hd. congruence.
  - apply strip_first in E. congruence.
Qed.

Lemma default_rule now phrase :
  clock_reading now ->
  relative_phrase (strip (lower phrase)) = None ->
  contains "tomorrow" (strip (lower phrase)) = false ->
  contains "at" (strip (lower phrase)) = false
  \/ first_format ["%I%p"; "%I:%M%p"; "%H:%M"; "%H"; "%I:%M"]
                  (time_part (strip (lower phrase))) = None ->
  begins_with_digit (strip (lower phrase)) = false ->
  parse_time now phrase = Ok (now + unit_us Hours).
Proof.
  intros [Hlo Hhi] Hrel Htom Hat Hdig. unfold parse_time.
  rewrite (parse_relative_none _ _ Hrel), Htom.
  assert (Htoday : parse_today now (strip (lower phrase)) = None).
  { unfold parse_today. destruct Hat as [-> | ->].
    - destruct (contains "today" (strip (lower phrase))); reflexivity.
    - repeat match goal with |- context [if ?b then _ else _] => destruct b end;
        reflexivity. }
  rewrite Htoday.
  fold standard_formats.
  rewrite (parse_standard_none _ (stripped_not_date _ Hdig)).
  change (timedelta 0 0 0 1 0) with (Ok (A:=Z) (unit_us Hours)).
  rewrite bind_ok. apply add_value.
  unfold unit_us, max_us, max_ordinal, us_per_day, us_per_second in *. lia.
Qed.


(** X10.  A phrase that no rule recognises resolves to one hour from now:
    this is so for every phrase that is not a relative offset, has no
    "tomorrow", has no "at" (or no time of day that parses after it), and
    does not begin with a digit.  "today" alone, "next week" and the empty
    phrase are such phrases. *)
Theorem unrecognised_is_one_hour now phrase :
  clock_reading now ->
  relative_phrase (strip (lower phrase)) = None ->
  contains "tomorrow" (strip (lower phrase)) = false ->
  contains "at" (strip (lower phrase)) = false
  \/ first_format ["%I%p"; "%I:%M%p"; "%H:%M"; "%H"; "%I:%M"]
                  (time_part (strip (lower phrase))) = None ->
  begins_with_digit (strip (lower phrase)) = false ->
  parse_time now phrase = Ok (now + unit_us Hours).
Proof. apply default_rule. Qed.

Lemma unrecognised_is_one_hour_witness :
  parse_time a_morning "Next week" = Ok (a_morning + unit_us Hours)
  /\ parse_time a_morning "today" = Ok (a_morning + unit_us Hours)
  /\ parse_time a_morning "" = Ok (a_morning + unit_us Hours).
Proof.
  split; [|split].
  - apply (unrecognised_is_one_hour a_morning "Next week");
      [split; vm_compute; discriminate|reflexivity|reflexivity|left; reflexivity|reflexivity].
  - apply (unrecognised_is_one_hour a_morning "today");
      [split; vm_compute; discriminate|reflexivity|reflexivity|left; reflexivity|reflexivity].
  - apply (unrecognised_is_one_hour a_morning "");
      [split; vm_compute; discriminate|reflexivity|reflexivity|left; reflexivity|reflexivity].
Defined.

End DefaultRule.

(** ** The text after "at" *)

Section AtClause.

Import PyStr Datetime Scheduler Spec.

Lemma contains_cons sub c r :
  contains sub (String c r)
  = if startswith sub (String c r) then true else contains sub r.
Proof. reflexivity. Qed.

Lemma startswith_at_head c d s t :
  startswith "at" (String c (String d s)) = startswith "at" (String c (String d t)).
Proof. simpl. destruct (Ascii.eqb "a" c), (Ascii.eqb "t" d); reflexivity. Qed.

(** Up to the first "at", [split("at")] copies the text. *)
Lemma split_on_first_at x cur rest :
  contains "at" x = false ->
  split_on_go "at" 0 cur (x +:+ "at" +:+ rest)
  = String.rev (String.rev_app x cur) :: split_on_go "at" 0 EmptyString rest.
Proof.
  revert cur. induction x as [|c x IH]; intros cur Hx.
  - rewrite app_empty_l. cbn. destruct rest; reflexivity.
  - rewrite app_cons.
    assert (Hc : contains "at" x = false).
    { rewrite contains_cons in Hx.
      destruct (startswith "at" (String c x)); [discriminate|exact Hx]. }
    assert (Hs : startswith "at" (String c (x +:+ "at" +:+ rest)) = false).
    { destruct x as [|d x].
      - rewrite app_empty_l. change ("at" +:+ rest) with (String "a" (String "t" rest)).
        cbn [startswith]. destruct (Ascii.eqb "a" c); reflexivity.
      - rewrite app_cons, (startswith_at_head c d _ x).
        rewrite contains_cons in Hx.
        destruct (startswith "at" (String c (String d x))) eqn:E;
          [discriminate|]. reflexivity. }
    cbn [split_on_go]. rewrite Hs. apply IH, Hc.
Qed.

Lemma split_on_no_at y cur :
  contains "at" y = false ->
  split_on_go "at" 0 cur y = [String.rev (String.rev_app y cur)].
Proof.
  revert cur. induction y as [|c y IH]; intros cur Hy; [reflexivity|].
  rewrite contains_cons in Hy.
  destruct (startswith "at" (String c y)) eqn:E; [discriminate|].
  cbn [split_on_go]. rewrite E. apply IH, Hy.
Qed.

Lemma rev_rev_app y : String.rev (String.rev_app y EmptyString) = y.
Proof. unfold String.rev. rewrite rev_app_rev_app. apply app_empty_r. Qed.

(** The time of day is read between the first "at" and the second. *)
Lemma time_part_between x y z :
  contains "at" x = false -> contains "at" y = false ->
  time_part (x +:+ "at" +:+ y +:+ "at" +:+ z) = remove_char " " (strip y).
Proof.
  intros Hx Hy. unfold time_part, split_on.
  rewrite (split_on_first_at x _ _ Hx), (split_on_first_at y _ _ Hy).
  cbn [nth]. rewrite rev_rev_app. reflexivity.
Qed.

(** X11.  The time of day is looked for between the first occurrence of
    the letters "at" and the second, also when the first one is inside a
    word: in a phrase "x at y at z" (no "tomorrow", not a relative offset,
    not beginning with a digit), when what stands between the two is not a
    time of day, whatever follows the second "at" is ignored and the phrase
    resolves to one hour from now. *)
Theorem earlier_at_hides_the_time now x y z :
  clock_reading now ->
  strip (lower (x +:+ "at" +:+ y +:+ "at" +:+ z)) = x +:+ "at" +:+ y +:+ "at" +:+ z ->
  contains "at" x = false -> contains "at" y = false ->
  relative_phrase (x +:+ "at" +:+ y +:+ "at" +:+ z) = None ->
  contains "tomorrow" (x +:+ "at" +:+ y +:+ "at" +:+ z) = false ->
  begins_with_digit (x +:+ "at" +:+ y +:+ "at" +:+ z) = false ->
  first_format ["%I%p"; "%I:%M%p"; "%H:%M"; "%H"; "%I:%M"]
               (remove_char " " (strip y)) = None ->
  parse_time now (x +:+ "at" +:+ y +:+ "at" +:+ z) = Ok (now + unit_us Hours).
Proof.
  intros Hclock Hnorm Hx Hy Hrel Htom Hdig Hfmt.
  apply default_rule; rewrite ?Hnorm; auto.
  right. rewrite time_part_between by assumption. exact Hfmt.
Qed.

Lemma earlier_at_hides_the_time_witness :
  parse_time a_morning ("meet k" +:+ "at" +:+ "e " +:+ "at" +:+ " 5pm")
  = Ok (a_morning + unit_us Hours).
Proof.
  apply (earlier_at_hides_the_time a_morning "meet k" "e " " 5pm");
    [split; vm_compute; discriminate|reflexivity..].
Defined.

End AtClause.

(** ** The time phrase of an extraction *)

Section TimePhrase.

Import PyStr Re Datetime Scheduler Bot Spec.

Lemma find_nonneg kw t : contains kw t = true -> 0 <= find kw t.
Proof.
  induction t as [|c t IH]; simpl.
  - destruct (startswith kw EmptyString); [lia|discriminate].
  - destruct (startswith kw (String c t)); [lia|]. intros H. specialize (IH H).
    destruct (Z.ltb_spec (find kw t) 0); lia.
Qed.

(** [find] gives a place where the keyword starts. *)
Lemma find_drop kw t :
  contains kw t = true -> startswith kw (drop (Z.to_nat (find kw t)) t) = true.
Proof.
  induction t as [|c t IH]; simpl.
  - destruct (startswith kw EmptyString) eqn:E; [intros _; exact E|discriminate].
  - destruct (startswith kw (String c t)) eqn:E; [intros _; exact E|].
    intros H. pose proof (find_nonneg _ _ H) as Hn.
    destruct (Z.ltb_spec (find kw t) 0); [lia|].
    replace (Z.to_nat (find kw t + 1)) with (S (Z.to_nat (find kw t))) by lia.
    simpl. apply IH, H.
Qed.

Lemma startswith_split p s : startswith p s = true -> exists rest, s = p +:+ rest.
Proof.
  revert s. induction p as [|a p IH]; intros s H; [exists s; reflexivity|].
  destruct s as [|b s]; simpl in H; [discriminate|].
  destruct (Ascii.eqb_spec a b) as [->|]; [|discriminate].
  destruct (IH _ H) as [rest ->]. exists rest. reflexivity.
Qed.

(** Stripping a text that begins with a word keeps the word. *)
Lemma rstrip_keeps_word w x : is_word w = true -> exists y, rstrip (w +:+ x) = w +:+ y.
Proof.
  unfold is_word. induction w as [|c w IH]; [discriminate|].
  intros [_ Hs]%andb_prop. simpl in Hs. apply andb_prop in Hs as [Hc Hw].
  apply negb_true_iff in Hc. rewrite app_cons.
  destruct w as [|d w].
  - rewrite app_empty_l. destruct (rstrip_head c x Hc) as [r ->]. exists r. reflexivity.
  - destruct IH as [y Hy]; [exact Hw|].
    rewrite rstrip_cons, Hy. rewrite app_cons. exists y. reflexivity.
Qed.

Lemma strip_keeps_word w x : is_word w = true -> exists y, strip (w +:+ x) = w +:+ y.
Proof.
  intros Hw. unfold strip.
  assert (Hl : lstrip (w +:+ x) = w +:+ x).
  { unfold is_word in Hw. destruct w as [|c w]; [discriminate|].
    apply andb_prop in Hw as [_ Hs]. simpl in Hs. apply andb_prop in Hs as [Hc _].
    apply negb_true_iff in Hc. rewrite app_cons. simpl. rewrite Hc. reflexivity. }
  rewrite Hl. apply rstrip_keeps_word, Hw.
Qed.

Lemma is_in_In s l : is_in s l = true -> In s l.
Proof.
  unfold is_in. intros H. apply existsb_exists in H as (x & Hx & E).
  apply String.eqb_eq in E. subst. exact Hx.
Qed.

Lemma keyword_is_word w : In w time_keywords -> is_word w = true.
Proof. intros [<-|[<-|[<-|[<-|[<-|[<-|[]]]]]]]; reflexivity. Qed.

Lemma begins_with_keyword_app w y :
  In w time_keywords -> begins_with_keyword (w +:+ y) = true.
Proof.
  intros Hw. unfold begins_with_keyword. apply existsb_exists.
  exists w. split; [exact Hw|apply startswith_app].
Qed.

Lemma keyword_phrase w x :
  In w time_keywords -> begins_with_keyword (strip (w +:+ x)) = true.
Proof.
  intros Hw. destruct (strip_keeps_word w x (keyword_is_word _ Hw)) as [y ->].
  apply begins_with_keyword_app, Hw.
Qed.

Lemma match_patterns_phrase ps t info :
  match_patterns ps t = Some info -> begins_with_keyword (time_str info) = true.
Proof.
  induction ps as [|pattern ps IH]; cbn [match_patterns]; [discriminate|].
  destruct (search pattern t) as [m|]; [|exact IH].
  change (groups 3 m)
    with [default EmptyString (group 1 m); default EmptyString (group 2 m);
          default EmptyString (group 3 m)].
  cbv beta iota.
  generalize (default EmptyString (group 1 m)), (default EmptyString (group 2 m)),
    (default EmptyString (group 3 m)). intros g0 g1 g2.
  destruct (is_in g0 time_keywords) eqn:E0.
  { intros [= <-]. cbn [time_str]. apply keyword_phrase, is_in_In, E0. }
  destruct (is_in g1 time_keywords) eqn:E1; [|exact IH].
  intros [= <-]. cbn [time_str]. apply keyword_phrase, is_in_In, E1.
Qed.

Lemma keyword_split_phrase kws t info :
  (forall kw, In kw kws -> exists w, In w time_keywords /\ kw = " " +:+ w +:+ " ") ->
  keyword_split kws t = Some info -> begins_with_keyword (time_str info) = true.
Proof.
  induction kws as [|kw kws IH]; intros Hk; cbn [keyword_split]; [discriminate|].
  assert (Hrest : keyword_split kws t = Some info ->
                  begins_with_keyword (time_str info) = true).
  { apply IH. intros kw' Hin. apply Hk. right. exact Hin. }
  destruct (contains kw t) eqn:Hc; [|exact Hrest].
  cbv zeta. destruct (negb _ && _)%bool; [|exact Hrest].
  intros [= <-]. cbn [time_str].
  destruct (Hk kw) as (w & Hw & ->); [left; reflexivity|].
  apply find_drop in Hc. apply startswith_split in Hc as [rest ->].
  rewrite !app_assoc_str.
  change (strip (" " +:+ w +:+ " " +:+ rest)) with (strip (w +:+ " " +:+ rest)).
  apply keyword_phrase, Hw.
Qed.

Lemma extract_phrase text :
  begins_with_keyword (time_str (extract_reminder_from_text text)) = true.
Proof.
  unfold extract_reminder_from_text.
  destruct (match_patterns patterns _) as [info|] eqn:E1.
  { eapply match_patterns_phrase, E1. }
  destruct (keyword_split split_keywords _) as [info|] eqn:E2.
  { eapply keyword_split_phrase; [|exact E2].
    intros kw [<-|[<-|[<-|[<-|[<-|[]]]]]];
      [exists "after"|exists "in"|exists "at"|exists "tomorrow"|exists "today"];
      (split; [unfold time_keywords; simpl; auto 10|reflexivity]). }
  reflexivity.
Qed.

(** X12.  Whatever the text, the time phrase that the extractor returns
    begins with one of the time keywords "after", "in", "at", "tomorrow",
    "today", "next"; in particular it is never empty. *)
Theorem time_phrase_begins_with_keyword text :
  begins_with_keyword (time_str (extract_reminder_from_text text)) = true
  /\ time_str (extract_reminder_from_text text) <> "".
Proof.
  pose proof (extract_phrase text) as H. split; [exact H|].
  intros E. rewrite E in H. discriminate H.
Qed.

Lemma keyword_not_date s :
  begins_with_keyword s = true -> ~ opens_date (strip (lower s)).
Proof.
  unfold begins_with_keyword. intros H.
  apply existsb_exists in H as (w & Hw & H).
  apply startswith_split in H as [rest ->].
  rewrite lower_app.
  destruct (strip_keeps_word (lower w) (lower rest)) as [y Hy].
  { rewrite is_word_lower. apply keyword_is_word, Hw. }
  rewrite Hy. intros (c & t & E & Hc).
  destruct Hw as [<-|[<-|[<-|[<-|[<-|[<-|[]]]]]]];
    cbn in E; injection E as <- _; destruct Hc as [Hc|Hc]; discriminate Hc.
Qed.

(** X13.  The standard datetime formats of [parse_time] never read the
    time phrase of an extraction: a date written out in a chat message is
    not taken as the time of the reminder. *)
Theorem extracted_phrase_is_never_a_date text :
  parse_standard standard_formats
    (strip (lower (time_str (extract_reminder_from_text text)))) = None.
Proof. apply parse_standard_none, keyword_not_date, extract_phrase. Qed.

End TimePhrase.

(** ** The shape of an extraction *)

Section ExtractionShape.

Import PyStr Re Bot Spec.

Lemma lower_char_idem c : Ascii.eqb (lower_char (lower_char c)) (lower_char c) = true.
Proof. destruct c as [[] [] [] [] [] [] [] []]; reflexivity. Qed.

Lemma is_lower_lower s : is_lower (lower s) = true.
Proof.
  induction s as [|c s IH]; [reflexivity|].
  simpl. rewrite lower_char_idem, IH. reflexivity.
Qed.

Lemma is_lower_app a b : is_lower (a +:+ b) = is_lower a && is_lower b.
Proof.
  induction a as [|c a IH]; [reflexivity|].
  rewrite app_cons. simpl. rewrite IH, andb_assoc. reflexivity.
Qed.

Lemma is_lower_lstrip s : is_lower s = true -> is_lower (lstrip s) = true.
Proof.
  induction s as [|c s IH]; [reflexivity|]. simpl.
  intros [Hc Hs]%andb_prop. destruct (isspace c); [auto|].
  simpl. rewrite Hc, Hs. reflexivity.
Qed.

Lemma is_lower_rstrip s : is_lower s = true -> is_lower (rstrip s) = true.
Proof.
  induction s as [|c s IH]; [reflexivity|]. rewrite rstrip_cons. simpl.
  intros [Hc Hs]%andb_prop. specialize (IH Hs).
  destruct (rstrip s); [destruct (isspace c); [reflexivity|]|];
    simpl in *; rewrite Hc, ?IH; reflexivity.
Qed.

Lemma is_lower_strip s : is_lower s = true -> is_lower (strip s) = true.
Proof. intros H. apply is_lower_rstrip, is_lower_lstrip, H. Qed.

Lemma is_lower_take n s : is_lower s = true -> is_lower (take n s) = true.
Proof.
  revert s. induction n as [|n IH]; intros [|c s]; simpl; auto.
  intros [Hc Hs]%andb_prop. rewrite Hc. simpl. auto.
Qed.

Lemma is_lower_drop n s : is_lower s = true -> is_lower (drop n s) = true.
Proof.
  revert s. induction n as [|n IH]; intros [|c s]; simpl; auto.
  intros [Hc Hs]%andb_prop. auto.
Qed.

(** What a pattern captures in a lower-case text is lower-case. *)
Lemma matches_lower r s g g' :
  matches r s g g' -> is_lower s = true ->
  (forall i x, In (i, x) g -> is_lower x = true) ->
  forall i x, In (i, x) g' -> is_lower x = true.
Proof.
  induction 1 as [| | | |r1 r2 s1 s2 g g1 g2 _ IH1 _ IH2| | |i r s g g' _ IH];
    intros Hs Hg j x Hin; eauto.
  - rewrite is_lower_app in Hs. apply andb_prop in Hs as [H1 H2].
    eapply IH2; [exact H2| |exact Hin]. intros; eapply IH1; eauto.
  - destruct Hin as [[= <- <-]|Hin]; [exact Hs|]. eapply IH; eauto.
Qed.

Lemma group_In i m x : group i m = Some x -> In (i, x) m.
Proof.
  induction m as [|[j y] m IH]; simpl; [discriminate|].
  destruct (Nat.eqb_spec i j) as [->|]; [intros [= ->]; auto|auto].
Qed.

Lemma search_lower r text m i :
  is_lower text = true -> search r text = Some m ->
  is_lower (default EmptyString (group i m)) = true.
Proof.
  intros Ht H. apply search_sound in H as (pre & s & rest & -> & M).
  rewrite !is_lower_app in Ht.
  apply andb_prop in Ht as [_ Ht]. apply andb_prop in Ht as [Hs _].
  destruct (group i m) as [x|] eqn:E; [|reflexivity]. simpl.
  eapply (matches_lower _ _ _ _ M Hs); [intros ? ? []|].
  apply group_In, E.
Qed.

Lemma sub_prefix_lower r s : is_lower s = true -> is_lower (sub_prefix r s) = true.
Proof.
  intros Hs. unfold sub_prefix, re_match.
  destruct (rx r s [] _) as [[rest g]|] eqn:E; [|exact Hs].
  apply rx_sound in E as (m & rest' & g' & -> & _ & [= -> _]).
  rewrite is_lower_app in Hs. apply andb_prop in Hs as [_ Hs]. exact Hs.
Qed.

(** [strip] twice is [strip] once. *)
Lemma lstrip_rstrip_lstrip s : lstrip (rstrip (lstrip s)) = rstrip (lstrip s).
Proof.
  destruct (rstrip (lstrip s)) as [|c r] eqn:E; [reflexivity|].
  pose proof E as E'. apply rstrip_first in E' as [r' E'].
  apply lstrip_first in E'. simpl. rewrite E'. reflexivity.
Qed.

Lemma strip_idem s : strip (strip s) = strip s.
Proof. unfold strip. rewrite lstrip_rstrip_lstrip. apply rstrip_idem. Qed.

Lemma match_patterns_shape ps t info :
  is_lower t = true -> match_patterns ps t = Some info -> trimmed_lower info.
Proof.
  intros Ht. induction ps as [|pattern ps IH]; cbn [match_patterns]; [discriminate|].
  destruct (search pattern t) as [m|] eqn:E; [|exact IH].
  change (groups 3 m)
    with [default EmptyString (group 1 m); default EmptyString (group 2 m);
          default EmptyString (group 3 m)].
  cbv beta iota.
  pose proof (search_lower _ _ _ 1%nat Ht E) as H0.
  pose proof (search_lower _ _ _ 2%nat Ht E) as H1.
  pose proof (search_lower _ _ _ 3%nat Ht E) as H2.
  revert H0 H1 H2.
  generalize (default EmptyString (group 1 m)), (default EmptyString (group 2 m)),
    (default EmptyString (group 3 m)). intros g0 g1 g2 H0 H1 H2.
  destruct (is_in g0 time_keywords).
  { intros [= <-]. unfold trimmed_lower. cbn [content time_str].
    rewrite !strip_idem. repeat split; apply is_lower_strip; auto.
    rewrite !is_lower_app, H0, H1. reflexivity. }
  destruct (is_in g1 time_keywords); [|exact IH].
  intros [= <-]. unfold trimmed_lower. cbn [content time_str].
  rewrite !strip_idem. repeat split; apply is_lower_strip; auto.
  rewrite !is_lower_app, H1, H2. reflexivity.
Qed.

Lemma keyword_split_shape kws t info :
  is_lower t = true -> keyword_split kws t = Some info -> trimmed_lower info.
Proof.
  intros Ht. induction kws as [|kw kws IH]; cbn [keyword_split]; [discriminate|].
  destruct (contains kw t); [|exact IH].
  cbv zeta. destruct (negb _ && _)%bool; [|exact IH].
  intros [= <-]. unfold trimmed_lower. cbn [content time_str].
  rewrite !strip_idem. repeat split.
  - apply is_lower_strip, sub_prefix_lower, is_lower_strip, is_lower_take, Ht.
  - apply is_lower_strip, is_lower_drop, Ht.
Qed.

(** X14.  Both fields of an extraction are trimmed, and the time phrase is
    lower-case; the content is lower-case too, whatever the case of the
    message, except when the last tier falls back to the whole message, in
    which case it is the trimmed message as it was written. *)
Theorem extraction_is_trimmed_lower_case text :
  let info := extract_reminder_from_text text in
  strip (content info) = content info
  /\ strip (time_str info) = time_str info
  /\ is_lower (time_str info) = true
  /\ (is_lower (content info) = true \/ content info = strip text).
Proof.
  cbv zeta. unfold extract_reminder_from_text.
  assert (Ht : is_lower (strip (lower text)) = true)
    by apply is_lower_strip, is_lower_lower.
  destruct (match_patterns patterns _) as [info|] eqn:E1.
  { destruct (match_patterns_shape _ _ _ Ht E1) as (? & ? & ? & ?). auto. }
  destruct (keyword_split split_keywords _) as [info|] eqn:E2.
  { destruct (keyword_split_shape _ _ _ Ht E2) as (? & ? & ? & ?). auto. }
  cbn [content time_str].
  destruct (String.eqb _ EmptyString); cbn [negb].
  - rewrite strip_idem. repeat split; auto.
  - rewrite strip_idem. repeat split; auto.
    left. apply is_lower_strip, sub_prefix_lower, Ht.
Qed.

End ExtractionShape.

(** ** The intent check in front of the extractor *)

Section Intent.

Import PyStr Re Bot Spec.

Lemma search_words_sound r prev s :
  search_words r prev s = true ->
  exists pre m rest g, s = pre +:+ m +:+ rest /\ matches r m [] g.
Proof.
  revert prev. induction s as [|c s IH]; intros prev; simpl.
  - destruct prev; [discriminate|].
    destruct (rx r EmptyString [] at_word_end) eqn:E; [|discriminate].
    intros _. apply rx_sound in E as (m & rest & g & Hs & M & _).
    exists EmptyString, m, rest, g. auto.
  - assert (Hnext : search_words r (is_word_char c) s = true ->
              exists pre m rest g, String c s = pre +:+ m +:+ rest /\ matches r m [] g).
    { intros H. destruct (IH _ H) as (pre & m & rest & g & -> & M).
      exists (String c pre), m, rest, g. auto. }
    destruct prev; [exact Hnext|].
    destruct (rx r (String c s) [] at_word_end) eqn:E; [|exact Hnext].
    intros _. apply rx_sound in E as (m & rest & g & Hs & M & _).
    exists EmptyString, m, rest, g. auto.
Qed.

(** Every trigger phrase begins with a letter. *)
Lemma trigger_begins r m g :
  In r reminder_patterns -> matches r m [] g ->
  exists c t, m = String c t /\ isspace c = false.
Proof.
  intros Hr M.
  repeat (destruct Hr as [<-|Hr]; [cbv [seqs fold_right] in M; inv_matches; eauto|]).
  destruct Hr.
Qed.

Lemma all_space_app a b : all_in CSpace (a +:+ b) = all_in CSpace a && all_in CSpace b.
Proof.
  induction a as [|c a IH]; [reflexivity|].
  rewrite app_cons. simpl. rewrite IH, andb_assoc. reflexivity.
Qed.

Lemma all_space_lower s : all_in CSpace (lower s) = all_in CSpace s.
Proof.
  induction s as [|c s IH]; [reflexivity|].
  simpl. rewrite lower_char_space, IH. reflexivity.
Qed.

Lemma rstrip_empty s : rstrip s = EmptyString -> all_in CSpace s = true.
Proof.
  induction s as [|c s IH]; [reflexivity|]. rewrite rstrip_cons.
  destruct (rstrip s); [|discriminate].
  destruct (isspace c) eqn:E; [|discriminate].
  intros _. simpl. rewrite E. apply IH. reflexivity.
Qed.

Lemma lstrip_all_space s : all_in CSpace (lstrip s) = true -> all_in CSpace s = true.
Proof.
  induction s as [|c s IH]; [reflexivity|]. simpl.
  destruct (isspace c) eqn:E; [exact IH|]. simpl. rewrite E. discriminate.
Qed.

Lemma blank_all_space s : is_blank s = true -> all_in CSpace s = true.
Proof.
  unfold is_blank, strip. intros H. apply String.eqb_eq in H.
  apply lstrip_all_space, rstrip_empty, H.
Qed.

Lemma detected_not_blank text :
  detect_reminder_intent text = true -> is_blank text = false.
Proof.
  unfold detect_reminder_intent. intros H.
  apply existsb_exists in H as (r & Hr & H).
  apply search_words_sound in H as (pre & m & rest & g & Hs & M).
  destruct (trigger_begins r m g Hr M) as (c & t & -> & Hc).
  destruct (is_blank text) eqn:E; [|reflexivity].
  apply blank_all_space in E. rewrite <- all_space_lower, Hs in E.
  rewrite all_space_app, app_cons in E. simpl in E. rewrite Hc in E.
  rewrite andb_false_r in E. discriminate.
Qed.

(** X15.  [detect_reminder_intent] only accepts a text in whose lower-case
    form one of the trigger patterns matches some substring, so a text that
    it accepts is never blank. *)
Theorem detected_text_is_not_blank text :
  detect_reminder_intent text = true ->
  is_blank text = false
  /\ exists pre m rest,
       lower text = pre +:+ m +:+ rest
       /\ exists r g, In r reminder_patterns /\ matches r m [] g.
Proof.
  intros H. split; [apply detected_not_blank, H|].
  unfold detect_reminder_intent in H.
  apply existsb_exists in H as (r & Hr & H).
  apply search_words_sound in H as (pre & m & rest & g & Hs & M).
  exists pre, m, rest. split; [exact Hs|]. exists r, g. auto.
Qed.

Lemma detected_text_is_not_blank_witness :
  is_blank "  Don't forget the milk " = false
  /\ exists pre m rest,
       lower "  Don't forget the milk " = pre +:+ m +:+ rest
       /\ exists r g, In r reminder_patterns /\ matches r m [] g.
Proof.
  apply (detected_text_is_not_blank "  Don't forget the milk "). vm_compute. reflexivity.
Defined.

End Intent.

Section IntentComplete.

Import PyStr Re Bot Spec.

Lemma search_words_skip r prev pre s :
  search_words r (ends_in_word prev pre) s = true ->
  search_words r prev (pre +:+ s) = true.
Proof.
  revert prev. induction pre as [|c pre IH]; intros prev H; [exact H|].
  rewrite app_cons. simpl.
  destruct (if prev then None else rx r (String c (pre +:+ s)) [] at_word_end);
    [reflexivity|]. apply IH, H.
Qed.

Lemma lower_word_char c : is_word_char (lower_char c) = is_word_char c.
Proof. destruct c as [[] [] [] [] [] [] [] []]; reflexivity. Qed.

Lemma ends_in_word_lower prev s : ends_in_word prev (lower s) = ends_in_word prev s.
Proof.
  revert prev. induction s as [|c s IH]; intros prev; [reflexivity|].
  simpl. rewrite lower_word_char. apply IH.
Qed.

Lemma begins_with_word_lower s : begins_with_word (lower s) = begins_with_word s.
Proof. destruct s; [reflexivity|]. simpl. apply lower_word_char. Qed.

Lemma strip_prefix_same p s : strip_prefix p (p +:+ s) = Some s.
Proof.
  induction p as [|c p IH]; [reflexivity|].
  rewrite app_cons. simpl. rewrite Ascii.eqb_refl. exact IH.
Qed.

Lemma literal_at_word_start phrase rest :
  begins_with_word rest = false ->
  search_words (Lit phrase) false (phrase +:+ rest) = true.
Proof.
  intros Hrest.
  assert (H : rx (Lit phrase) (phrase +:+ rest) [] at_word_end = Some []).
  { cbn [rx]. rewrite strip_prefix_same. unfold at_word_end.
    destruct rest as [|c rest]; [reflexivity|]. simpl in Hrest. rewrite Hrest. reflexivity. }
  revert H. generalize (phrase +:+ rest). intros s H.
  destruct s; cbn [search_words]; rewrite H; reflexivity.
Qed.

(** X16.  A message in which "remind me", "tomorrow at" or "today at"
    stands as words of its own, in any mix of upper and lower case, is
    always taken as a reminder request. *)
Theorem literal_trigger_is_detected before said after phrase :
  In phrase ["remind me"; "tomorrow at"; "today at"] ->
  lower said = phrase ->
  ends_in_word false before = false ->
  begins_with_word after = false ->
  detect_reminder_intent (before +:+ said +:+ after) = true.
Proof.
  intros Hphrase Hsaid Hbefore Hafter. unfold detect_reminder_intent.
  rewrite !lower_app, Hsaid. apply existsb_exists.
  exists (Lit phrase). split.
  { unfold reminder_patterns.
    destruct Hphrase as [<-|[<-|[<-|[]]]]; simpl; auto 10. }
  apply search_words_skip. rewrite ends_in_word_lower, Hbefore.
  apply literal_at_word_start. rewrite begins_with_word_lower. exact Hafter.
Qed.

Lemma literal_trigger_is_detected_witness :
  detect_reminder_intent ("Hey, " +:+ "Remind Me" +:+ "!") = true.
Proof.
  apply (literal_trigger_is_detected "Hey, " "Remind Me" "!" "remind me");
    [left; reflexivity|reflexivity..].
Defined.

End IntentComplete.

(** ** The list of active reminders *)

Section ActiveReminders.

Import PyStr Datetime Scheduler Bot Spec.

(** The query returns exactly the unsent rows of the user. *)
Lemma active_reminders_spec uid rows id r :
  (id, r) ∈ active_reminders uid rows
  <-> rows !! id = Some r /\ user_id r = uid /\ sent r = false.
Proof.
  unfold active_reminders. rewrite merge_sort_Permutation.
  rewrite list_elem_of_In, filter_In, <- list_elem_of_In, elem_of_map_to_list.
  cbn [snd]. rewrite andb_true_iff, Z.eqb_eq, negb_true_iff. tauto.
Qed.

(** X17.  [/myreminders] shows exactly the reminders of the user that are
    not marked sent, in the order of their time; every entry it shows has
    the status "Pending", and it answers that there are no active
    reminders exactly when the user has no unsent row. *)
Theorem view_reminders_shows_unsent uid rows :
  (forall id r, (id, r) ∈ active_reminders uid rows
                <-> rows !! id = Some r /\ user_id r = uid /\ sent r = false)
  /\ Sorted earlier (active_reminders uid rows)
  /\ (forall entries, view_reminders_command uid rows = YourReminders entries ->
        entries = map (fun kr => (false, row_content (snd kr), reminder_time (snd kr)))
                      (active_reminders uid rows))
  /\ (view_reminders_command uid rows = NoActiveReminders
      <-> forall id r, rows !! id = Some r -> user_id r = uid -> sent r = true).
Proof.
  split; [intros id r; apply active_reminders_spec|].
  split; [apply Sorted_merge_sort; apply _|].
  split.
  - intros entries. unfold view_reminders_command.
    destruct (active_reminders uid rows) as [|kr l] eqn:E; [discriminate|].
    intros [= <-].
    apply (map_ext_in (fun kr : Z * Reminder =>
                         (sent (snd kr), row_content (snd kr), reminder_time (snd kr)))
                      _ (kr :: l)).
    intros [id r] Hin. cbn [snd].
    rewrite <- E in Hin. apply list_elem_of_In, active_reminders_spec in Hin as (_ & _ & ->).
    reflexivity.
  - unfold view_reminders_command.
    destruct (active_reminders uid rows) as [|[id0 r0] l] eqn:E.
    + split; [intros _|reflexivity]. intros id r Hr Hu.
      destruct (sent r) eqn:Hs; [reflexivity|].
      assert (Hin : (id, r) ∈ active_reminders uid rows)
        by (apply active_reminders_spec; auto).
      rewrite E in Hin. inversion Hin.
    + split; [discriminate|]. intros H.
      assert (Hin : (id0, r0) ∈ active_reminders uid rows) by (rewrite E; left).
      apply active_reminders_spec in Hin as (Hr & Hu & Hs).
      rewrite (H _ _ Hr Hu) in Hs. discriminate.
Qed.

(** X18.  After a delivery that succeeds and is recorded, the reminder is
    no longer among the active reminders of any user, and the other rows
    are listed as before; after a delivery that fails, the list of every
    user is what it was. *)
Theorem delivery_clears_active_reminder send_ok db_ok user content reminder_id w r :
  rows w !! reminder_id = Some r ->
  let w' := send_reminder_async send_ok db_ok user content reminder_id w in
  (send_ok = true -> db_ok = true ->
     (forall uid r', (reminder_id, r') ∉ active_reminders uid (rows w'))
     /\ (forall uid id r', id <> reminder_id ->
           (id, r') ∈ active_reminders uid (rows w')
           <-> (id, r') ∈ active_reminders uid (rows w)))
  /\ (send_ok = false ->
        forall uid, view_reminders_command uid (rows w')
                    = view_reminders_command uid (rows w)).
Proof.
  intros Hr w'. split.
  - intros -> ->. subst w'. unfold send_reminder_async.
    cbn [emit rows]. rewrite Hr. cbn [emit set_rows rows]. split.
    + intros uid r' Hin. apply active_reminders_spec in Hin as (Hl & _ & Hs).
      rewrite lookup_insert_eq in Hl. injection Hl as <-. discriminate Hs.
    + intros uid id r' Hne. rewrite !active_reminders_spec.
      rewrite lookup_insert_ne by congruence. reflexivity.
  - intros ->. reflexivity.
Qed.

Lemma delivery_clears_active_reminder_witness :
  let w := World {[ 5 := Row 1 "call mom" a_morning false false ]} [] [] in
  let w' := send_reminder_async true true 7 "call mom" 5 w in
  (true = true -> true = true ->
     (forall uid r', (5, r') ∉ active_reminders uid (rows w'))
     /\ (forall uid id r', id <> 5 ->
           (id, r') ∈ active_reminders uid (rows w')
           <-> (id, r') ∈ active_reminders uid (rows w)))
  /\ (true = false ->
        forall uid, view_reminders_command uid (rows w')
                    = view_reminders_command uid (rows w)).
Proof.
  apply (delivery_clears_active_reminder true true 7 "call mom" 5
           (World {[ 5 := Row 1 "call mom" a_morning false false ]} [] [])
           (Row 1 "call mom" a_morning false false)).
  reflexivity.
Defined.

(** X19.  After a submission that is accepted, the durable row and the
    timer agree: the row of the new reminder holds the resolved time and is
    not sent, the store holds exactly one timer for it, with that time as
    run date and the row's key and content as callback arguments, the
    reminder is among the user's active reminders, the other rows are
    untouched, and the user is told the content and the time. *)
Theorem accepted_submission_is_consistent
    uid telegram_id new_id placeholder clock1 clock2 text w t id js :
  rows w !! new_id = None ->
  unique_ids (jobs w) ->
  schedule_reminder clock1 clock2 new_id telegram_id
    (content (extract_reminder_from_text text))
    (time_str (extract_reminder_from_text text)) (jobs w) = (Scheduled t id, js) ->
  let c := content (extract_reminder_from_text text) in
  let w' := create_reminder_from_message uid telegram_id new_id placeholder
              clock1 clock2 text w in
  rows w' !! new_id = Some (Row uid c t false false)
  /\ timers new_id (jobs w') = [Job (reminder_job_id new_id) t (telegram_id, c, new_id)]
  /\ (new_id, Row uid c t false false) ∈ active_reminders uid (rows w')
  /\ (forall other, other <> new_id -> rows w' !! other = rows w !! other)
  /\ trace w' = trace w ++ [VectorStoreAdd telegram_id c t; ReplyText (GotIt c t)].
Proof.
  intros Hfresh Hu Hs c w'.
  pose proof (scheduled_timer _ _ _ _ _ _ _ _ _ _ Hu Hs) as [_ Ht].
  subst w' c. unfold create_reminder_from_message.
  cbn [set_rows jobs rows trace]. rewrite Hs.
  cbn [emit set_rows set_jobs jobs rows trace].
  set (c := content (extract_reminder_from_text text)) in *.
  assert (Hrow : <[new_id:=Row uid c t false false]>
                   (<[new_id:=Row uid c placeholder false false]> (rows w)) !! new_id
                 = Some (Row uid c t false false)) by apply lookup_insert_eq.
  split; [exact Hrow|]. split; [exact Ht|]. split.
  - apply active_reminders_spec. auto.
  - split.
    + intros other Hne. rewrite !lookup_insert_ne by congruence. reflexivity.
    + rewrite <- List.app_assoc. reflexivity.
Qed.

Lemma accepted_submission_is_consistent_witness :
  let w := World ∅ [] [] in
  let c := content (extract_reminder_from_text "remind me to call mom in 5 minutes") in
  let t := a_morning + 5 * unit_us Minutes in
  let w' := create_reminder_from_message 1 7 5 a_morning a_morning a_morning
              "remind me to call mom in 5 minutes" w in
  rows w' !! 5 = Some (Row 1 c t false false)
  /\ timers 5 (jobs w') = [Job (reminder_job_id 5) t (7, c, 5)]
  /\ (5, Row 1 c t false false) ∈ active_reminders 1 (rows w')
  /\ (forall other, other <> 5 -> rows w' !! other = rows w !! other)
  /\ trace w' = trace w ++ [VectorStoreAdd 7 c t; ReplyText (GotIt c t)].
Proof.
  apply (accepted_submission_is_consistent 1 7 5 a_morning a_morning a_morning
           "remind me to call mom in 5 minutes" (World ∅ [] [])
           (a_morning + 5 * unit_us Minutes) (reminder_job_id 5)
           [Job (reminder_job_id 5) (a_morning + 5 * unit_us Minutes) (7, "call mom", 5)]).
  - reflexivity.
  - intros i. simpl. lia.
  - vm_compute. reflexivity.
Defined.

End ActiveReminders.

(** ** Amounts that [int] refuses *)

Section LongAmount.

Import PyStr Datetime Scheduler Spec.










End LongAmount.
